(** * Housing affordability clustering: embedding of the feature builder,
    the prediction endpoint, the cleaning / refinement steps and the k search.

    Python floats are modelled by exact rationals [Q]; every constant of the
    source (0.3, 0.5, 2.0, 3.0, 0.85, ...) is written as the rational it
    denotes.  The rationals have no NaN, infinity or overflow; the burden
    line of [build_features] is also embedded on IEEE binary64 floats
    ([burden_f]) to cover them.  The scaler and the k-means model are external (scikit-learn)
    and enter as a function from the 15-slot feature vector to a cluster id. *)

From Stdlib Require Import QArith Qabs ZArith Ascii String List Bool Lia Lqa.
From Stdlib Require Import Sorted Permutation DecimalString.
From Stdlib Require Import Floats.SpecFloat.
Import ListNotations.

#[local] Set Warnings "-register-all".
Open Scope string_scope.
Open Scope list_scope.
Open Scope Q_scope.

(** ** Python primitives *)

(** [a < b] on floats, as a boolean. *)
Definition qltb (a b : Q) : bool := negb (Qle_bool b a).

(** Python's [max(a, b)]: keeps [a] unless [b > a]. *)
Definition py_max (a b : Q) : Q := if qltb a b then b else a.

(** Decoded JSON values, as [request.json] hands them to the handler. *)
Inductive json : Type :=
| JNull
| JBool (b : bool)
| JNum (q : Q)
| JStr (s : string)
| JArr (l : list json)
| JObj (kvs : list (string * json)).

(** Exceptions raised by [float(x)]. *)
Inductive py_exc : Type := ValueError | TypeError.

(** The two pieces of the Python runtime on strings that the handler relies
    on: [float(s)] on a [str] ([None] where it raises [ValueError]) and
    [str(v)] of a decoded JSON value (used by the f-string of the age
    message). *)
Class PyRuntime := {
  float_of_str : string -> option Q;
  str_of_json : json -> string
}.

Section Runtime.
Context `{PyRuntime}.

(** Python's [float(v)] on a decoded JSON value. *)
Definition py_float (v : json) : py_exc + Q :=
  match v with
  | JNull => inl TypeError
  | JBool b => inr (if b then 1 else 0)
  | JNum q => inr q
  | JStr s => match float_of_str s with Some q => inr q | None => inl ValueError end
  | JArr _ => inl TypeError
  | JObj _ => inl TypeError
  end.

End Runtime.

(** ** app.py: [build_features] *)

Definition build_features (inc cst ag beds : Q) : list Q * Q :=
  let burden := (cst * 12) / py_max inc 1 in
  let val_est := cst * 12 * 15 in
  let fmr_est := 1100 in
  let rooms_est := beds + 2 in
  let status := if qltb burden (3#10) then 1
                else if Qle_bool burden (1#2) then 2 else 3 in
  let ami_ratio := inc / 70000 in
  let ami_cat := if qltb ami_ratio (3#10) then 1
                 else if qltb ami_ratio (1#2) then 2
                 else if qltb ami_ratio (8#10) then 3 else 4 in
  let rent_own := if qltb 65000 inc then 1 else 2 in
  let struct_type := if qltb 65000 inc then 1 else 2 in
  let vec := [inc; cst; val_est; fmr_est; burden; status; ag; 2; beds;
              rooms_est; struct_type; rent_own; 3; 1; ami_cat] in
  (vec, burden).

(** ** app.py: the burden line of [build_features] on binary64 floats *)

(** [build_features] receives Python floats (IEEE binary64) from the
    handler, and nothing checks that they are finite: [float("nan")],
    [float("inf")], a JSON [NaN] or [Infinity] and a JSON number close to
    the largest double are all accepted.  The rationals above have no NaN,
    no infinity and no overflow, so line 121 is also embedded on Stdlib's
    IEEE specification [spec_float] at 53 bits of precision and exponent
    bound 1024 (binary64, rounding to nearest, ties to even). *)
Definition f64 : Type := spec_float.

(** The float denoting an integer, [float(z)]. *)
Definition f64_of_Z (z : Z) : f64 := binary_normalize 53 1024 z 0 false.

Definition f64_mul (x y : f64) : f64 := SFmul 53 1024 x y.

Definition f64_div (x y : f64) : f64 := SFdiv 53 1024 x y.

(** [a < b]: false as soon as one side is NaN. *)
Definition f64_ltb (x y : f64) : bool := SFltb x y.

(** [max(a, b)]: keeps [a] unless [b > a], so [max(nan, 1)] is [nan]. *)
Definition py_max_f (a b : f64) : f64 := if f64_ltb a b then b else a.

(** [burden = (cst * 12) / max(inc, 1)]; the [int]s 12 and 1 are converted
    to the floats [12.0] and [1.0] by the mixed arithmetic. *)
Definition burden_f (inc cst : f64) : f64 :=
  f64_div (f64_mul cst (f64_of_Z 12)) (py_max_f inc (f64_of_Z 1)).

(** A value is finite when it is a zero or a finite nonzero float. *)
Definition f64_is_finite (x : f64) : bool :=
  match x with
  | S754_zero _ | S754_finite _ _ _ => true
  | S754_infinity _ | S754_nan => false
  end.

(** The double [2^1023] (about 8.99e307, the JSON number
    [8.98846567431158e307]). *)
Definition f64_2_1023 : f64 := binary_normalize 53 1024 1 1023 false.

(** ** app.py: [predict] (the [/api/predict] handler) *)

(** The JSON body: only the four keys the handler reads; [None] is an
    absent key. *)
Record request := mkRequest {
  r_income : option json;
  r_cost : option json;
  r_bedrooms : option json;
  r_age : option json
}.

(** [data.get(key, default)]. *)
Definition get_or (o : option json) (d : json) : json :=
  match o with Some v => v | None => d end.

(** Outcomes of the handler: a 200 response with its JSON body, or an error
    response.  [EException] is the outer [except Exception] (status 400),
    abstracted to the exception class. *)
Inductive py_error : Type :=
| EModelNotLoaded
| EInvalidCluster (c : Z)
| EException (e : py_exc).

Inductive outcome : Type :=
| Ok200 (body : list (string * json))
| Err (e : py_error).

Definition status_code (o : outcome) : Z :=
  match o with
  | Ok200 _ => 200
  | Err EModelNotLoaded => 500
  | Err (EInvalidCluster _) => 500
  | Err (EException _) => 400
  end.

Definition AGE_MEDIAN : Q := 35.

(** Lookup in a JSON object, first binding wins (the handler's bodies have
    distinct keys). *)
Fixpoint assoc (k : string) (kvs : list (string * json)) : option json :=
  match kvs with
  | [] => None
  | (k', v) :: r => if String.eqb k k' then Some v else assoc k r
  end.

(** [cluster_policy_map]: cluster id -> (label, policy). *)
Definition cluster_policy_map : list (Z * (string * string)) :=
  [ (0%Z, ("Middle-Income Stable",
          "Workforce housing support, rent stabilization, first-time homebuyer assistance."));
    (1%Z, ("Low-Income Severely Burdened",
          "Immediate rent subsidies, eviction prevention, emergency housing assistance."));
    (2%Z, ("High-Income Secure",
          "Market-rate housing development, inclusionary zoning, cross-subsidy for affordable housing."));
    (3%Z, ("Extremely Low-Income / No Income",
          "Emergency shelter, supportive housing, income verification and benefits enrollment.")) ].

Fixpoint policy_lookup_in (c : Z) (m : list (Z * (string * string)))
  : option (string * string) :=
  match m with
  | [] => None
  | (c', e) :: r => if Z.eqb c c' then Some e else policy_lookup_in c r
  end.

Definition policy_lookup (c : Z) : option (string * string) :=
  policy_lookup_in c cluster_policy_map.

Definition monthly_msg : string := "Potential monthly income entry detected.".

Section Handler.
Context `{PyRuntime}.

(** The age block (lines 94-116): [inl e] when [float(raw_age)] raises an
    exception other than [ValueError], which escapes to the outer handler;
    otherwise the final age and the [age_anomaly] flag. *)
Definition age_step (raw_age : option json) : py_exc + (Q * bool) :=
  match raw_age with
  | None => inr (AGE_MEDIAN, false)
  | Some JNull => inr (AGE_MEDIAN, false)
  | Some (JStr s) =>
      if String.eqb s "" then inr (AGE_MEDIAN, false)
      else match py_float (JStr s) with
           | inr a => if qltb a 18 || qltb 110 a then inr (AGE_MEDIAN, true)
                      else inr (a, false)
           | inl ValueError => inr (AGE_MEDIAN, false)
           | inl TypeError => inl TypeError
           end
  | Some v =>
      match py_float v with
      | inr a => if qltb a 18 || qltb 110 a then inr (AGE_MEDIAN, true)
                 else inr (a, false)
      | inl ValueError => inr (AGE_MEDIAN, false)
      | inl TypeError => inl TypeError
      end
  end.

(** The raw age as the f-string of the age message renders it
    ([None] when the key is absent). *)
Definition raw_age_str (raw_age : option json) : string :=
  match raw_age with Some v => str_of_json v | None => str_of_json JNull end.

Definition age_msg (raw_age : option json) : string :=
  String.append "Age "
    (String.append (raw_age_str raw_age) " invalid (out of range). used median.").

(** Parsed inputs: income, cost, bedrooms, final age, age anomaly, and the
    raw age (kept for the message). *)
Record parsed := mkParsed {
  p_income : Q; p_cost : Q; p_beds : Q; p_age : Q; p_age_anomaly : bool;
  p_raw_age : option json
}.

(** Lines 90-116: the three [float(data.get(...))] calls in order, then the
    age block. *)
Definition parse_request (req : request) : py_exc + parsed :=
  match py_float (get_or (r_income req) (JNum 50000)) with
  | inl e => inl e
  | inr inc =>
  match py_float (get_or (r_cost req) (JNum 1000)) with
  | inl e => inl e
  | inr cst =>
  match py_float (get_or (r_bedrooms req) (JNum 3)) with
  | inl e => inl e
  | inr beds =>
  match age_step (r_age req) with
  | inl e => inl e
  | inr (ag, anom) => inr (mkParsed inc cst beds ag anom (r_age req))
  end end end end.

Definition primary (p : parsed) : list Q * Q :=
  build_features (p_income p) (p_cost p) (p_age p) (p_beds p).

Definition possible_monthly (p : parsed) : bool :=
  qltb (p_income p) 6000 && Qle_bool 800 (p_cost p) && qltb 2 (snd (primary p)).

Definition anomalies (p : parsed) : list string :=
  (if p_age_anomaly p then [age_msg (p_raw_age p)] else [])
  ++ (if possible_monthly p then [monthly_msg] else []).

(** Lines 161-243, after parsing; [assign] is
    [int(model.predict(scaler.transform([vec]))[0])].  In this rational
    model every feature vector is finite, and on finite vectors the two
    scikit-learn calls return.  They raise [ValueError] on a NaN or infinite
    slot, which the handler answers with 400 (line 245); such slots arise
    only on floats (see [burden_f]), which [respond] does not cover. *)
Definition respond (assign : list Q -> Z) (p : parsed) : outcome :=
  let '(vec, burden) := primary p in
  let cluster := assign vec in
  match policy_lookup cluster with
  | None => Err (EInvalidCluster cluster)
  | Some (lbl, pol) =>
      let recommendation := String.append lbl (String.append ": " pol) in
      let anoms := anomalies p in
      let anomaly_flag := negb (Nat.eqb (length anoms) 0) in
      let label := if qltb (3#10) (nth 4 vec 0) then "High" else "Affordable" in
      Ok200 [ ("cluster", JNum (inject_Z cluster));
              ("cost_burden_ratio", JNum burden);
              ("cost_burden_label", JStr label);
              ("recommendation", JStr recommendation);
              ("anomaly_flag", JBool anomaly_flag);
              ("anomaly_reasons", JArr (map JStr anoms)) ]
  end%string.

(** The handler; [None] artifacts when the model or the scaler is not
    loaded. *)
Definition predict (artifacts : option (list Q -> Z)) (req : request) : outcome :=
  match artifacts with
  | None => Err EModelNotLoaded
  | Some assign =>
      match parse_request req with
      | inl e => Err (EException e)
      | inr p => respond assign p
      end
  end.

End Handler.

(** A runtime on the integer fragment: [float(s)] accepts optionally
    signed decimal integer literals, and [str(v)] renders integral numbers
    the way Python renders an [int]. *)
Definition int_runtime : PyRuntime := {|
  float_of_str := fun s =>
    option_map (fun i => inject_Z (Z.of_int i)) (DecimalString.NilZero.int_of_string s);
  str_of_json := fun v =>
    match v with
    | JNull => "None"
    | JBool true => "True"
    | JBool false => "False"
    | JNum q => if Pos.eqb (Qden q) 1
                then DecimalString.NilZero.string_of_int (Z.to_int (Qnum q))
                else "<float>"
    | JStr s => s
    | JArr _ => "[...]"
    | JObj _ => "{...}"
    end
|}.

(** ** clean_data.py: the derived affordability metrics (lines 96-119) *)

(** [df['ZINC2'].replace(0, 1)], then [(COSTMED * 12) / income], then
    [.clip(upper=3.0)], for one row. *)
Definition training_burden (zinc2 costmed : Q) : Q :=
  let income := if Qeq_bool zinc2 0 then 1 else zinc2 in
  let r := (costmed * 12) / income in
  if qltb 3 r then 3 else r.

(** [np.select(conditions, [1, 2, 3], default=1)] for one row. *)
Definition training_status (r : Q) : Q :=
  if qltb r (3#10) then 1
  else if Qle_bool (3#10) r && Qle_bool r (1#2) then 2
  else if qltb (1#2) r then 3
  else 1.

(** [clip(upper=3.0)] of one value. *)
Definition clip3 (r : Q) : Q := if qltb 3 r then 3 else r.

(** ** clean_data.py: imputation (lines 41-49) *)

(** A column is a list of cells; [None] is a missing cell ([NaN]). *)
Definition present {A} (col : list (option A)) : list A :=
  flat_map (fun o => match o with Some x => [x] | None => [] end) col.

Fixpoint insert_le {A} (le : A -> A -> bool) (x : A) (l : list A) : list A :=
  match l with
  | [] => [x]
  | y :: r => if le x y then x :: y :: r else y :: insert_le le x r
  end.

Definition sort_le {A} (le : A -> A -> bool) (l : list A) : list A :=
  fold_right (insert_le le) [] l.

(** [Series.median()] (skipna): [None] for a column with no value. *)
Definition median (col : list (option Q)) : option Q :=
  let s := sort_le Qle_bool (present col) in
  let n := length s in
  match n with
  | O => None
  | _ => if Nat.even n
         then Some ((nth (Nat.div2 n - 1) s 0 + nth (Nat.div2 n) s 0) / 2)
         else Some (nth (Nat.div2 n) s 0)
  end.

(** [df[col].fillna(df[col].median())]. *)
Definition fill_median (col : list (option Q)) : list (option Q) :=
  let m := median col in
  map (fun o => match o with Some x => Some x | None => m end) col.

(** The mode branch runs on the columns as [read_csv] left them, before
    the [FMT*] codes are decoded (lines 69-83): the cells are the raw
    strings, such as ['1 Owner'].  [count_of v l] is the number of cells of
    [l] equal to [v]. *)
Definition count_of (v : string) (l : list string) : nat :=
  length (filter (String.eqb v) l).

(** [Series.mode()] (dropna): the values of maximal count, deduplicated and
    sorted as pandas sorts an object array, by Python's [<] on [str], the
    lexicographic order of the characters ([String.leb] on ASCII text). *)
Definition pd_mode (col : list (option string)) : list string :=
  let vals := present col in
  let maxc := fold_right (fun v m => Nat.max (count_of v vals) m) O vals in
  sort_le String.leb
    (nodup string_dec (filter (fun v => Nat.eqb (count_of v vals) maxc) vals)).

(** [if not df[col].mode().empty: df[col].fillna(df[col].mode()[0])]. *)
Definition fill_mode (col : list (option string)) : list (option string) :=
  match pd_mode col with
  | [] => col
  | m :: _ => map (fun o => match o with Some x => Some x | None => Some m end) col
  end.

(** A column of the frame, by its dtype: [float64] (the numeric columns,
    where missing cells are [NaN]) or [object] (strings; this includes the
    undecoded ['code label'] columns and any numeric data read as text). *)
Inductive column : Type :=
| FloatCol (c : list (option Q))
| ObjectCol (c : list (option string)).

(** One iteration of the loop of lines 43-49.  [df[col].dtype == np.number]
    compares with [np.dtype(np.number)], which NumPy converts to [float64]:
    [float64] columns take the median branch, the others the mode branch
    (an [int64] column, which never holds a missing cell, is left unchanged
    by either). *)
Definition impute_column (c : column) : column :=
  match c with
  | FloatCol x => FloatCol (fill_median x)
  | ObjectCol x => ObjectCol (fill_mode x)
  end.

(** ** refine_data.py: correlation filtering (lines 35-78) *)

Definition candidates : list string :=
  [ "ZINC2"; "COSTMED"; "VALUE"; "FMR";
    "cost_burden_ratio"; "affordability_status";
    "AGE1"; "PER"; "BEDRMS"; "ROOMS";
    "FMTSTRUCTURETYPE"; "FMTOWNRENT"; "FMTSTATUS";
    "REGION"; "METRO3"; "Locality_Label";
    "FMTINCRELAMICAT" ].

(** [[c for c in candidates if c in df.columns]]. *)
Definition selected_features (df_cols : list string) : list string :=
  filter (fun c => existsb (String.eqb c) df_cols) candidates.

(** Dropping the columns whose missing ratio exceeds 0.3. *)
Definition feature_columns (df_cols : list string) (missing_ratio : string -> Q)
  : list string :=
  filter (fun c => negb (qltb (3#10) (missing_ratio c))) (selected_features df_cols).

(** [[column for column in upper.columns if any(upper[column] > 0.85)]]:
    [upper] keeps, in the column of [c], the absolute correlations with the
    columns before [c]; [seen] are those columns. *)
Fixpoint upper_scan (corr : string -> string -> Q) (seen cols : list string)
  : list string :=
  match cols with
  | [] => []
  | c :: rest =>
      (if existsb (fun r => qltb (85#100) (Qabs (corr r c))) seen then [c] else [])
      ++ upper_scan corr (seen ++ [c]) rest
  end.

Definition to_drop (corr : string -> string -> Q) (cols : list string) : list string :=
  upper_scan corr [] cols.

Definition refine_to_drop (df_cols : list string) (missing_ratio : string -> Q)
  (corr : string -> string -> Q) : list string :=
  to_drop corr (feature_columns df_cols missing_ratio).

(** Python's [str] of a list of column names: ['a', 'b']. *)
Definition py_str_list (l : list string) : string :=
  ("[" ++ String.concat ", " (map (fun c => "'" ++ c ++ "'") l) ++ "]")%string.

(** Lines 70-80: the printed lines and [final_features], the feature table
    without the dropped columns ([feature_df.drop(columns=to_drop)]). *)
Definition refine_corr_step (df_cols : list string) (missing_ratio : string -> Q)
  (corr : string -> string -> Q) : list string * list string :=
  let cols := feature_columns df_cols missing_ratio in
  let dropped := to_drop corr cols in
  let final := filter (fun c => negb (existsb (String.eqb c) dropped)) cols in
  (["  High correlation features to drop (>0.85): " ++ py_str_list dropped;
    "  Final Feature Count: " ++ NilZero.string_of_uint (Nat.to_uint (length final));
    "  Final Features: " ++ py_str_list final]%string,
   final).

(** ** run_analysis.py: choice of k (lines 30-65) *)

Definition K_range : list Z := [2; 3; 4; 5; 6; 7; 8; 9; 10]%Z.

(** The search loop: for each k, the inertia of the fit and the silhouette
    score of its labels on the fixed-seed sample. *)
Definition k_search (inertia_of silhouette_of : Z -> Q) : list Q * list Q :=
  (map inertia_of K_range, map silhouette_of K_range).

(** [np.argmax]: index of the first maximal element. *)
Fixpoint argmax_from (i bi : nat) (bv : Q) (l : list Q) : nat :=
  match l with
  | [] => bi
  | x :: r => if qltb bv x then argmax_from (S i) i x r else argmax_from (S i) bi bv r
  end.

Definition argmax (l : list Q) : nat :=
  match l with
  | [] => O
  | x :: r => argmax_from 1 O x r
  end.

(** [optimal_k = K_range[np.argmax(sil_scores)]]. *)
Definition optimal_k (curves : list Q * list Q) : Z :=
  nth (argmax (snd curves)) K_range 0%Z.

(** ** Concrete requests and inputs *)

(** The six keys of every successful response. *)
Definition response_keys : list string :=
  ["cluster"; "cost_burden_ratio"; "cost_burden_label"; "recommendation";
   "anomaly_flag"; "anomaly_reasons"].

(** The case of the spec: income 1300, cost 800, no age. *)
Definition req_1300_800 : request :=
  mkRequest (Some (JNum 1300)) (Some (JNum 800)) None None.

Definition req_7000_1500 : request :=
  mkRequest (Some (JNum 7000)) (Some (JNum 1500)) None (Some (JNum 35)).

(** A JSON array as the age, with otherwise valid fields. *)
Definition req_array_age : request :=
  mkRequest (Some (JNum 45000)) (Some (JNum 1200)) None (Some (JArr [JNum 35])).

Definition over_threshold (corr : string -> string -> Q) (c : string) (r : string) : bool :=
  qltb (85#100) (Qabs (corr r c)).

(** The correlation step alone, on a feature table holding
    cost_burden_ratio and affordability_status with correlation 0.95. *)
Definition corr_pair (x y : string) : Q :=
  if (String.eqb x y)%bool then 1 else 95#100.

(** A feature table holding COSTMED, cost_burden_ratio and
    affordability_status, with absolute correlations 0.9 (COSTMED and the
    ratio), 0.95 (the ratio and the status derived from it) and 0.8
    (COSTMED and the status): a positive definite correlation matrix. *)
Definition corr_chain (x y : string) : Q :=
  let pair a b := ((String.eqb x a && String.eqb y b) || (String.eqb x b && String.eqb y a))%bool in
  if String.eqb x y then 1
  else if pair "COSTMED" "cost_burden_ratio" then 9#10
  else if pair "cost_burden_ratio" "affordability_status" then 95#100
  else if pair "COSTMED" "affordability_status" then 8#10
  else 0.

Definition chain_cols : list string := ["COSTMED"; "cost_burden_ratio"; "affordability_status"].

(** An object column in which the raw strings '9 B' and '10 A' tie, '9 B'
    first. *)
Definition col_9_10 : list (option string) :=
  [Some "9 B"; Some "10 A"; Some "9 B"; Some "10 A"; None].

(** The parsed form of [req_1300_800]. *)
Definition parsed_1300_800 : parsed := mkParsed 1300 800 3 AGE_MEDIAN false None.

(** Income 40000 and cost 1000: a burden ratio of exactly 0.3. *)
Definition parsed_40000_1000 : parsed := mkParsed 40000 1000 3 AGE_MEDIAN false None.

(** The body of a successful response, empty for an error. *)
Definition ok_body (o : outcome) : list (string * json) :=
  match o with Ok200 b => b | Err _ => [] end.

(** ** clean_data.py and refine_data.py: negative placeholders and
    missing-heavy columns *)

(** [df.loc[df[col] < 0, col] = np.nan] on one numeric column. *)
Definition clean_negatives (col : list (option Q)) : list (option Q) :=
  map (fun o => match o with
                | Some x => if qltb x 0 then None else Some x
                | None => None
                end) col.

(** [df[col].isnull()] on one cell. *)
Definition is_missing {A} (o : option A) : bool :=
  match o with None => true | Some _ => false end.

(** [df[col].isnull().mean()]: [None] (NaN) for a frame without rows. *)
Definition missing_ratio_col {A} (col : list (option A)) : option Q :=
  match length col with
  | O => None
  | n => Some (inject_Z (Z.of_nat (length (filter is_missing col))) / inject_Z (Z.of_nat n))
  end.

(** [missing_ratio[missing_ratio > 0.3]] and [drop(columns=...)], on a frame
    given as its named columns; a NaN ratio is not above the threshold. *)
Definition drop_missing_cols {A} (df : list (string * list (option A)))
  : list (string * list (option A)) :=
  filter (fun nc => match missing_ratio_col (snd nc) with
                    | Some r => negb (qltb (3#10) r)
                    | None => true
                    end) df.

(** ** clean_data.py: [extract_code] (lines 55-65) *)

(** [val.split(' ')[0]]: the text before the first space. *)
Fixpoint first_token (s : string) : string :=
  match s with
  | EmptyString => EmptyString
  | String c r => if Ascii.eqb c " "%char then EmptyString else String c (first_token r)
  end.

Section Extract.
Context `{PyRuntime}.

(** [extract_code] on a [str] (the column goes through [astype(str)]):
    [float(parts[0])], NaN ([None]) where [float] raises [ValueError]. *)
Definition extract_code (s : string) : option Q := float_of_str (first_token s).

End Extract.

(** ** clean_data.py: [Locality_Label] (lines 147-150) *)

(** [df['REGION'] * 10 + df['METRO3']] for one row. *)
Definition locality_label (region metro3 : Q) : Q := region * 10 + metro3.

(** ** run_analysis.py: the DBSCAN comparison (line 81) *)

(** [len(set(dbscan_labels)) - (1 if -1 in dbscan_labels else 0)]. *)
Definition n_dbscan_clusters (labels : list Z) : nat :=
  (length (nodup Z.eq_dec labels) - (if existsb (Z.eqb (-1)) labels then 1 else 0))%nat.

(** Income 40000, cost 1000 and an out-of-range age of 150. *)
Definition req_age_150 : request :=
  mkRequest (Some (JNum 40000)) (Some (JNum 1000)) None (Some (JNum 150)).

Definition parsed_age_150 : parsed :=
  mkParsed 40000 1000 3 AGE_MEDIAN true (Some (JNum 150)).

(** Income 40000 and cost 1000 with five bedrooms and age 60. *)
Definition parsed_40000_1000_b5 : parsed := mkParsed 40000 1000 5 60 false None.

(** A numeric column with a missing cell, and one with a negative
    placeholder. *)
Definition col_1_5 : list (option Q) := [Some 1; None; Some 5].

Definition col_placeholder : list (option Q) := [Some (-6); None; Some 4].

(** * Proofs *)

(** ** Boolean comparisons on Q *)

Lemma qltb_true (a b : Q) : qltb a b = true <-> a < b.
Proof.
  unfold qltb. rewrite negb_true_iff. split; intro H.
  - apply Qnot_le_lt. intro H'. apply Qle_bool_iff in H'. congruence.
  - destruct (Qle_bool b a) eqn:E; [|reflexivity].
    apply Qle_bool_iff in E. exfalso. apply (Qlt_not_le _ _ H E).
Qed.

Lemma qltb_false (a b : Q) : qltb a b = false <-> b <= a.
Proof.
  unfold qltb. rewrite negb_false_iff. apply Qle_bool_iff.
Qed.

Lemma Qle_bool_false (a b : Q) : Qle_bool a b = false <-> b < a.
Proof.
  split; intro H.
  - apply Qnot_le_lt. intro H'. apply Qle_bool_iff in H'. congruence.
  - destruct (Qle_bool a b) eqn:E; [|reflexivity].
    apply Qle_bool_iff in E. exfalso. apply (Qlt_not_le _ _ H E).
Qed.

(** Turns every boolean comparison hypothesis into a proposition. *)
Ltac qbools :=
  repeat match goal with
  | H : qltb _ _ = true |- _ => apply qltb_true in H
  | H : qltb _ _ = false |- _ => apply qltb_false in H
  | H : Qle_bool _ _ = true |- _ => apply Qle_bool_iff in H
  | H : Qle_bool _ _ = false |- _ => apply Qle_bool_false in H
  | H : (_ && _)%bool = true |- _ => apply andb_true_iff in H; destruct H
  end.

(** Case split on every comparison in the goal, then arithmetic. *)
Ltac qcases :=
  repeat match goal with
  | |- context [qltb ?a ?b] => destruct (qltb a b) eqn:?
  | |- context [Qle_bool ?a ?b] => destruct (Qle_bool a b) eqn:?
  end; simpl; qbools.

Lemma burden_divisor (inc : Q) :
  py_max inc 1 = (if qltb inc 1 then 1 else inc).
Proof. reflexivity. Qed.

(** ** C1 *)

(** C1 (corrected). For an income of 0 or of at least 1 (the training
    column holds no negative income and no income in (0, 1) after
    cleaning), the burden ratio of the training corpus is the burden ratio
    of the inference builder clipped at 3.0, and the affordability status
    codes of the two paths agree. *)
Theorem training_burden_is_clipped_inference (inc cost ag beds : Q)
  (Hinc : inc == 0 \/ 1 <= inc) :
  training_burden inc cost = clip3 (snd (build_features inc cost ag beds)) /\
  training_status (training_burden inc cost) = nth 5 (fst (build_features inc cost ag beds)) 0.
Proof.
  assert (Hd : (if Qeq_bool inc 0 then 1 else inc) = py_max inc 1).
  { unfold py_max. destruct Hinc as [H0 | H1].
    - rewrite (proj2 (Qeq_bool_iff inc 0) H0).
      destruct (qltb inc 1) eqn:E; [reflexivity|]. qbools. lra.
    - destruct (Qeq_bool inc 0) eqn:E.
      + apply Qeq_bool_iff in E. lra.
      + destruct (qltb inc 1) eqn:E'; [qbools; lra | reflexivity]. }
  unfold training_burden, build_features, clip3. simpl. rewrite Hd.
  set (r := cost * 12 / py_max inc 1).
  split; [reflexivity|].
  unfold training_status.
  destruct (qltb 3 r) eqn:Hclip; qcases; try reflexivity; lra.
Qed.

(** ** C2 *)

(** C2 (corrected). In exact arithmetic the inference burden ratio is
    [cost * 12 / max(income, 1)]: it is [cost * 12 / income] for an income
    of at least 1 and [cost * 12] for an income below 1, and it is
    non-negative whenever the cost is non-negative.  On the floats the
    handler actually receives it need not be finite: a NaN income or cost
    gives a NaN ratio ([max(nan, 1)] is [nan]), and an infinite cost with a
    finite income gives [+inf]. *)
Theorem burden_ratio_formula (inc cost ag beds : Q) (fi fc : f64) :
  snd (build_features inc cost ag beds) = cost * 12 / py_max inc 1 /\
  (1 <= inc -> snd (build_features inc cost ag beds) = cost * 12 / inc) /\
  (inc < 1 -> snd (build_features inc cost ag beds) == cost * 12) /\
  (0 <= cost -> 0 <= snd (build_features inc cost ag beds)) /\
  py_max_f S754_nan (f64_of_Z 1) = S754_nan /\
  burden_f S754_nan fc = S754_nan /\
  burden_f fi S754_nan = S754_nan /\
  (f64_is_finite fi = true -> burden_f fi (S754_infinity false) = S754_infinity false).
Proof.
  split; [reflexivity|].
  split; [|split; [|split]].
  - intro H. simpl. rewrite burden_divisor.
    destruct (qltb inc 1) eqn:E; [qbools; lra | reflexivity].
  - intro H. simpl. rewrite burden_divisor.
    destruct (qltb inc 1) eqn:E; [|qbools; lra].
    unfold Qdiv. rewrite Qmult_1_r. reflexivity.
  - intro H. simpl. rewrite burden_divisor. unfold Qdiv. apply Qmult_le_0_compat; [lra|].
    apply Qinv_le_0_compat. destruct (qltb inc 1) eqn:E; qbools; lra.
  - split; [reflexivity|].
    split; [unfold burden_f; destruct (f64_mul fc (f64_of_Z 12)); reflexivity|].
    split; [reflexivity|].
    intro Hf. unfold burden_f, py_max_f.
    destruct fi as [s | s | | s m e]; try discriminate; [reflexivity|].
    destruct s; [reflexivity|].
    destruct (f64_ltb (S754_finite false m e) (f64_of_Z 1)); reflexivity.
Qed.

(** C1 refuted as stated: for income 1300 and cost 800 the training
    corpus holds the clipped ratio 3 while the inference path computes
    9600/1300 (about 7.38); for income 1/2 the training path divides by the
    income and the inference path by 1. *)
Lemma training_and_inference_burden_differ :
  ~ (training_burden 1300 800 == snd (build_features 1300 800 35 3)) /\
  ~ (training_burden (1#2) 100 == snd (build_features (1#2) 100 35 3)).
Proof. split; vm_compute; discriminate. Qed.

(** C2 refuted as stated: for income 1/2 (> 0) and cost 1000 the ratio is
    12000, not cost*12/income = 24000; for cost -100 it is negative; on
    floats, the income [float("nan")] gives a NaN ratio, and the finite cost
    [2^1023] (about 8.99e307) overflows [cost * 12] to [+inf], so the ratio
    is [+inf] for an income of 50000. *)
Lemma burden_ratio_not_finite_nonneg :
  ~ (snd (build_features (1#2) 1000 35 3) == 1000 * 12 / (1#2)) /\
  snd (build_features 45000 (-100) 35 3) < 0 /\
  burden_f S754_nan (f64_of_Z 1000) = S754_nan /\
  f64_is_finite f64_2_1023 = true /\
  burden_f (f64_of_Z 50000) f64_2_1023 = S754_infinity false.
Proof.
  split; [vm_compute; discriminate|].
  split; [vm_compute; reflexivity|].
  repeat split; vm_compute; reflexivity.
Qed.

(** The float model agrees with the rational one where the values are
    exactly representable: income 64000 and cost 1000 give 0.1875 = 3/16
    on both. *)
Lemma burden_f_exact_case :
  snd (build_features 64000 1000 35 3) == 3#16 /\
  burden_f (f64_of_Z 64000) (f64_of_Z 1000) = binary_normalize 53 1024 3 (-4) false.
Proof. split; vm_compute; reflexivity. Qed.

(** ** The handler *)

Lemma policy_lookup_none (c : Z) : policy_lookup c = None <-> ~ (0 <= c <= 3)%Z.
Proof.
  unfold policy_lookup, cluster_policy_map. simpl.
  destruct (Z.eqb_spec c 0); [split; [discriminate| lia]|].
  destruct (Z.eqb_spec c 1); [split; [discriminate| lia]|].
  destruct (Z.eqb_spec c 2); [split; [discriminate| lia]|].
  destruct (Z.eqb_spec c 3); [split; [discriminate| lia]|].
  split; [lia | reflexivity].
Qed.

Section HandlerProofs.
Context `{PyRuntime}.

(** The shape of a successful response. *)
Lemma respond_ok (assign : list Q -> Z) (p : parsed) (body : list (string * json)) :
  respond assign p = Ok200 body ->
  exists lbl pol,
    policy_lookup (assign (fst (primary p))) = Some (lbl, pol) /\
    body = [ ("cluster", JNum (inject_Z (assign (fst (primary p)))));
             ("cost_burden_ratio", JNum (snd (primary p)));
             ("cost_burden_label",
               JStr (if qltb (3#10) (nth 4 (fst (primary p)) 0) then "High" else "Affordable"));
             ("recommendation", JStr (String.append lbl (String.append ": " pol)));
             ("anomaly_flag", JBool (negb (Nat.eqb (length (anomalies p)) 0)));
             ("anomaly_reasons", JArr (map JStr (anomalies p))) ].
Proof.
  unfold respond. destruct (primary p) as [vec b]. simpl.
  destruct (policy_lookup (assign vec)) as [[lbl pol]|] eqn:E; [|discriminate].
  intro Hok. inversion Hok. exists lbl, pol. split; reflexivity.
Qed.

Lemma nth4_primary (p : parsed) : nth 4 (fst (primary p)) 0 = snd (primary p).
Proof. reflexivity. Qed.

End HandlerProofs.

(** ** C3 *)

(** C3 (corrected). The policy table maps exactly the ids 0..3.  A
    predicted id outside it yields the explicit invalid-cluster error
    (status 500), never a default entry; an id inside it yields a response
    whose recommendation is that entry's label and policy.  Hence all ids
    [0, k-1] of a model resolve exactly when k <= 4. *)
Theorem unmapped_cluster_explicit_error `{PyRuntime} (assign : list Q -> Z) (p : parsed) :
  (forall c, policy_lookup c = None <-> ~ (0 <= c <= 3)%Z) /\
  (policy_lookup (assign (fst (primary p))) = None ->
     respond assign p = Err (EInvalidCluster (assign (fst (primary p))))) /\
  (forall lbl pol, policy_lookup (assign (fst (primary p))) = Some (lbl, pol) ->
     exists body, respond assign p = Ok200 body /\
       assoc "recommendation" body = Some (JStr (String.append lbl (String.append ": " pol)))) /\
  (forall k, (2 <= k)%Z ->
     ((forall c, (0 <= c < k)%Z -> policy_lookup c <> None) <-> (k <= 4)%Z)).
Proof.
  split; [exact policy_lookup_none|].
  split.
  { intro E. unfold respond. destruct (primary p) as [vec b] eqn:Ep. simpl in E.
    rewrite E. reflexivity. }
  split.
  { intros lbl pol E. unfold respond. destruct (primary p) as [vec b] eqn:Ep. simpl in E.
    rewrite E. eexists. split; reflexivity. }
  intros k Hk. split.
  - intro Hall. destruct (Z.le_gt_cases k 4) as [Hle | Hgt]; [exact Hle|].
    exfalso. apply (Hall 4%Z); [lia | reflexivity].
  - intros Hle c Hc Hn. apply policy_lookup_none in Hn. lia.
Qed.

(** C3 refuted as stated: a model with k = 5 (within the searched range)
    can predict id 4, which has no policy entry; the request then fails with
    the invalid-cluster error. *)
Lemma five_cluster_model_unmapped :
  (2 <= 5 <= 10)%Z /\ (0 <= 4 < 5)%Z /\ policy_lookup 4 = None /\
  @predict int_runtime (Some (fun _ => 4%Z)) (mkRequest None None None None)
    = Err (EInvalidCluster 4).
Proof. vm_compute. repeat split; try discriminate; reflexivity. Qed.

(** ** C4 *)

(** C4 (corrected). Whenever the monthly-income heuristic fires, a
    successful response has its anomaly flag set and lists the
    monthly-income message among its reasons; the response has exactly the
    six flat keys, so no alternative interpretation is computed or
    returned. *)
Theorem monthly_flag_without_alternative `{PyRuntime} (assign : list Q -> Z) (p : parsed)
  (body : list (string * json))
  (Hok : respond assign p = Ok200 body) (Hm : possible_monthly p = true) :
  assoc "anomaly_flag" body = Some (JBool true) /\
  (exists l, assoc "anomaly_reasons" body = Some (JArr l) /\ In (JStr monthly_msg) l) /\
  map fst body = response_keys /\
  assoc "alternative_interpretation" body = None.
Proof.
  apply respond_ok in Hok. destruct Hok as (lbl & pol & _ & ->).
  assert (Hin : In monthly_msg (anomalies p)).
  { unfold anomalies. rewrite Hm. apply in_or_app. right. left. reflexivity. }
  split.
  - simpl. destruct (anomalies p); [contradiction | reflexivity].
  - split; [|split; reflexivity].
    exists (map JStr (anomalies p)). split; [reflexivity|].
    apply in_map. exact Hin.
Qed.

(** C4 refuted as stated: for income 1300 and cost 800 the heuristic fires,
    yet the response carries no alternative interpretation (and so no
    adjusted annual income of 15600). *)
Lemma monthly_case_has_no_alternative :
  match @parse_request int_runtime req_1300_800 with
  | inr p => possible_monthly p = true
  | inl _ => False
  end /\
  match @predict int_runtime (Some (fun _ => 3%Z)) req_1300_800 with
  | Ok200 body => assoc "alternative_interpretation" body = None
  | Err _ => False
  end.
Proof. vm_compute. split; reflexivity. Qed.

(** ** C5 *)

(** C5 (code bug). Income 7000, cost 1500, age 35: the burden ratio is
    18000/7000 > 2.0, yet the response has no "extremely high cost burden"
    reason; its reason list is empty and its anomaly flag is false. *)
Theorem high_burden_not_flagged `{PyRuntime} (assign : list Q -> Z)
  (body : list (string * json))
  (Hok : predict (Some assign) req_7000_1500 = Ok200 body) :
  assoc "cost_burden_ratio" body = Some (JNum (18000 # 7000)) /\
  2 < 18000 # 7000 /\
  assoc "anomaly_reasons" body = Some (JArr []) /\
  assoc "anomaly_flag" body = Some (JBool false).
Proof.
  unfold predict in Hok. simpl in Hok.
  apply respond_ok in Hok. destruct Hok as (lbl & pol & _ & ->).
  vm_compute. repeat split; reflexivity.
Qed.

(** ** C6 *)

(** The age block on scalar ages: an absent, null, empty or unparsable
    string age gives the median with no anomaly; a parsed age outside
    [18, 110] gives the median with the anomaly, whose message embeds the
    raw value. *)
Lemma age_step_scalar `{PyRuntime} (raw : option json) :
  (forall s, raw = Some (JStr s) -> float_of_str s = None ->
     age_step raw = inr (AGE_MEDIAN, false)) /\
  (raw = None \/ raw = Some JNull \/ raw = Some (JStr "") ->
     age_step raw = inr (AGE_MEDIAN, false)) /\
  (forall v a, raw = Some v -> v <> JNull -> v <> JStr "" -> py_float v = inr a ->
     (a < 18 \/ 110 < a) ->
     age_step raw = inr (AGE_MEDIAN, true) /\
     age_msg raw = String.append "Age "
       (String.append (str_of_json v) " invalid (out of range). used median.")).
Proof.
  split; [|split].
  - intros s -> Hs. unfold age_step, py_float. rewrite Hs.
    destruct (String.eqb s ""); reflexivity.
  - intros [-> | [-> | ->]]; reflexivity.
  - intros v a -> Hv He Hf Hr.
    assert (Hb : (qltb a 18 || qltb 110 a)%bool = true).
    { destruct Hr as [Hr | Hr]; apply orb_true_iff; [left | right]; apply qltb_true; exact Hr. }
    split; [|reflexivity].
    destruct v as [| b | q | s | l | kv].
    + exfalso; apply Hv; reflexivity.
    + simpl in Hf. injection Hf as Ha. subst a. cbn [age_step py_float]. rewrite Hb. reflexivity.
    + simpl in Hf. injection Hf as Ha. subst a. cbn [age_step py_float]. rewrite Hb. reflexivity.
    + cbn [age_step]. destruct (String.eqb s "") eqn:Es.
      * apply String.eqb_eq in Es. subst. exfalso; apply He; reflexivity.
      * rewrite Hf. cbv iota beta. rewrite Hb. reflexivity.
    + simpl in Hf. discriminate.
    + simpl in Hf. discriminate.
Qed.

(** C6 (code bug). An age that cannot be converted ([float([35])] raises
    [TypeError], which the [except ValueError] of the age block does not
    catch) makes the whole request fail with status 400, for every runtime
    and every loaded model. *)
Theorem array_age_fails_request `{PyRuntime} (assign : list Q -> Z) :
  predict (Some assign) req_array_age = Err (EException TypeError) /\
  status_code (predict (Some assign) req_array_age) = 400%Z.
Proof. split; reflexivity. Qed.

(** ** C10 *)

(** C10. In every successful response the cost-burden label is "High"
    when the reported burden ratio exceeds 0.3 and "Affordable" otherwise;
    at a ratio of exactly 0.3 it is "Affordable" while the status code of
    the feature vector is 2. *)
Theorem burden_label_two_values `{PyRuntime} (assign : list Q -> Z) (p : parsed)
  (body : list (string * json)) (Hok : respond assign p = Ok200 body) :
  exists b,
    assoc "cost_burden_ratio" body = Some (JNum b) /\
    assoc "cost_burden_label" body =
      Some (JStr (if qltb (3#10) b then "High" else "Affordable")) /\
    (b == 3#10 ->
       assoc "cost_burden_label" body = Some (JStr "Affordable") /\
       nth 5 (fst (primary p)) 0 = 2).
Proof.
  apply respond_ok in Hok. destruct Hok as (lbl & pol & _ & ->).
  rewrite nth4_primary.
  exists (snd (primary p)). split; [reflexivity|]. split; [reflexivity|].
  intro Hb.
  assert (Hf : qltb (3#10) (snd (primary p)) = false) by (apply qltb_false; lra).
  rewrite Hf. split; [reflexivity|].
  unfold primary, build_features in *. simpl in *.
  set (r := p_cost p * 12 / py_max (p_income p) 1) in *.
  assert (H1 : qltb r (3#10) = false) by (apply qltb_false; lra).
  assert (H2 : Qle_bool r (1#2) = true) by (apply Qle_bool_iff; lra).
  rewrite H1, H2. reflexivity.
Qed.

(** ** Imputation *)

Section SortFacts.
Context {A : Type} (le : A -> A -> bool).

Lemma in_insert_le (x a : A) (l : list A) :
  In x (insert_le le a l) <-> x = a \/ In x l.
Proof.
  induction l as [| y r IH]; simpl.
  - intuition congruence.
  - destruct (le a y); simpl; [|rewrite IH]; intuition congruence.
Qed.

Lemma in_sort_le (x : A) (l : list A) : In x (sort_le le l) <-> In x l.
Proof.
  induction l as [| a r IH]; simpl; [tauto|].
  rewrite in_insert_le, IH. intuition congruence.
Qed.

Hypothesis le_total : forall x y, le x y = true \/ le y x = true.

Lemma insert_sorted (a : A) (l : list A) :
  Sorted (fun x y => le x y = true) l -> Sorted (fun x y => le x y = true) (insert_le le a l).
Proof.
  induction 1 as [| y r Hs IH Hhd]; simpl.
  - constructor; constructor.
  - destruct (le a y) eqn:E.
    + constructor; [constructor; assumption | constructor; exact E].
    + assert (Eya : le y a = true) by (destruct (le_total a y); congruence).
      constructor; [exact IH|].
      destruct r as [| z r']; simpl.
      * constructor. exact Eya.
      * inversion Hhd; subst. destruct (le a z); constructor; assumption.
Qed.

Lemma sort_sorted (l : list A) : Sorted (fun x y => le x y = true) (sort_le le l).
Proof.
  induction l as [| a r IH]; simpl; [constructor|]. apply insert_sorted, IH.
Qed.

End SortFacts.

(** The lexicographic order on strings is transitive (Stdlib proves it
    total and antisymmetric). *)
Lemma string_compare_trans (s1 s2 s3 : string) :
  String.compare s1 s2 <> Gt -> String.compare s2 s3 <> Gt -> String.compare s1 s3 <> Gt.
Proof.
  revert s2 s3.
  induction s1 as [| a s1 IH]; intros [| b s2] [| c s3]; cbn [String.compare]; try congruence.
  unfold Ascii.compare.
  destruct (N.compare_spec (N_of_ascii a) (N_of_ascii b));
  destruct (N.compare_spec (N_of_ascii b) (N_of_ascii c));
  destruct (N.compare_spec (N_of_ascii a) (N_of_ascii c));
  try congruence; try lia.
  apply IH.
Qed.

Lemma string_leb_trans (x y z : string) :
  String.leb x y = true -> String.leb y z = true -> String.leb x z = true.
Proof.
  unfold String.leb. intros H1 H2.
  destruct (String.compare x z) eqn:E; [reflexivity | reflexivity | exfalso].
  apply (string_compare_trans x y z); [| | exact E].
  - destruct (String.compare x y); congruence.
  - destruct (String.compare y z); congruence.
Qed.

Lemma string_leb_refl (x : string) : String.leb x x = true.
Proof. destruct (String.leb_total x x); assumption. Qed.

Lemma fold_max_ge {A} (f : A -> nat) (l : list A) (v : A) :
  In v l -> (f v <= fold_right (fun x m => Nat.max (f x) m) O l)%nat.
Proof.
  induction l as [| a r IH]; simpl; [contradiction|].
  intros [-> | Hv]; [lia|]. specialize (IH Hv). lia.
Qed.

Lemma fold_max_attained {A} (f : A -> nat) (l : list A) :
  l <> [] -> exists v, In v l /\ f v = fold_right (fun x m => Nat.max (f x) m) O l.
Proof.
  induction l as [| a r IH]; [contradiction|]. intros _.
  destruct r as [| b r'].
  - exists a. simpl. split; [left; reflexivity | lia].
  - destruct IH as (w & Hw & Hfw); [discriminate|].
    set (M := fold_right (fun x m => Nat.max (f x) m) O (b :: r')) in *.
    change (fold_right (fun x m => Nat.max (f x) m) O (a :: b :: r')) with (Nat.max (f a) M).
    destruct (Nat.max_spec (f a) M) as [[Hlt Hm] | [Hge Hm]]; rewrite Hm.
    + exists w. split; [right; exact Hw | exact Hfw].
    + exists a. split; [left; reflexivity | reflexivity].
Qed.

Lemma present_map_Some {A} (l : list A) : present (map Some l) = l.
Proof. induction l as [| a r IH]; simpl; [reflexivity|]. rewrite IH. reflexivity. Qed.

Lemma nth_error_fill {A} (f : option A -> option A) (col : list (option A)) (i : nat) o :
  nth_error col i = Some o -> nth_error (map f col) i = Some (f o).
Proof. intro E. rewrite nth_error_map, E. reflexivity. Qed.

(** C7 (corrected). The loop of lines 43-49 treats a column by its dtype.
    A [float64] column keeps its present cells and every missing cell
    becomes the median of the present values only.  An [object] column (raw
    strings: the undecoded ['code label'] columns, and numeric data read as
    text) takes the mode branch: when some value is present, every missing
    cell becomes [mode()[0]], a most frequent string and the least of all
    most frequent strings in lexicographic order (pandas sorts the modes),
    not the first one met in row order. *)
Theorem imputation_median_and_smallest_mode (ncol : list (option Q)) (ccol : list (option string)) :
  impute_column (FloatCol ncol) = FloatCol (fill_median ncol) /\
  (forall i x, nth_error ncol i = Some (Some x) -> nth_error (fill_median ncol) i = Some (Some x)) /\
  (forall i, nth_error ncol i = Some None -> nth_error (fill_median ncol) i = Some (median ncol)) /\
  median ncol = median (map Some (present ncol)) /\
  impute_column (ObjectCol ccol) = ObjectCol (fill_mode ccol) /\
  (present ccol <> [] -> pd_mode ccol <> []) /\
  (forall m rest, pd_mode ccol = m :: rest ->
     In m (present ccol) /\
     (forall v, In v (present ccol) -> (count_of v (present ccol) <= count_of m (present ccol))%nat) /\
     (forall v, In v (present ccol) -> count_of v (present ccol) = count_of m (present ccol) ->
        String.leb m v = true) /\
     (forall i, nth_error ccol i = Some None -> nth_error (fill_mode ccol) i = Some (Some m)) /\
     (forall i x, nth_error ccol i = Some (Some x) -> nth_error (fill_mode ccol) i = Some (Some x))).
Proof.
  set (vals := present ccol).
  set (f := fun v => count_of v vals).
  set (maxc := fold_right (fun x m => Nat.max (f x) m) O vals).
  set (ties := nodup string_dec (filter (fun v => Nat.eqb (f v) maxc) vals)).
  assert (Hmode : pd_mode ccol = sort_le String.leb ties) by reflexivity.
  assert (Hin : forall v, In v (pd_mode ccol) <-> In v vals /\ f v = maxc).
  { intro v. rewrite Hmode, in_sort_le. unfold ties.
    rewrite nodup_In, filter_In, Nat.eqb_eq. tauto. }
  split; [reflexivity|].
  split; [intros i x E; unfold fill_median; rewrite (nth_error_fill _ _ _ _ E); reflexivity|].
  split; [intros i E; unfold fill_median; rewrite (nth_error_fill _ _ _ _ E); reflexivity|].
  split; [unfold median; rewrite present_map_Some; reflexivity|].
  split; [reflexivity|].
  split.
  { intros Hne Hnil. destruct (fold_max_attained f vals Hne) as (w & Hw & Hfw).
    assert (Hw' : In w (pd_mode ccol)) by (apply Hin; split; assumption).
    rewrite Hnil in Hw'. contradiction. }
  intros m rest Hm.
  assert (Hmin : In m (pd_mode ccol)) by (rewrite Hm; left; reflexivity).
  apply Hin in Hmin. destruct Hmin as [Hmv Hmc].
  split; [exact Hmv|].
  split.
  { intros v Hv. change (f v <= f m)%nat. rewrite Hmc. apply fold_max_ge. exact Hv. }
  split.
  { intros v Hv Hc. change (f v = f m) in Hc.
    assert (Hvm : In v (pd_mode ccol)) by (apply Hin; split; [exact Hv | congruence]).
    pose proof (sort_sorted String.leb String.leb_total ties) as Hs.
    rewrite <- Hmode, Hm in Hs. rewrite Hm in Hvm.
    destruct Hvm as [<- | Hvr]; [apply string_leb_refl|].
    apply Sorted_extends in Hs; [|intros a b c; apply string_leb_trans].
    rewrite Forall_forall in Hs. apply Hs, Hvr. }
  unfold fill_mode. rewrite Hm.
  split; [intros i E | intros i x E]; rewrite (nth_error_fill _ _ _ _ E); reflexivity.
Qed.

(** C7 refuted as stated: in the object column ['9 B', '10 A', '9 B',
    '10 A', missing] the two strings tie and '9 B' comes first in row order,
    yet the missing cell is filled with '10 A', the lexicographically
    smaller string; once decoded (lines 69-83) it holds the code 10, neither
    the first-met nor the numerically smallest code. *)
Lemma mode_tie_takes_lexicographic_first :
  count_of "9 B" (present col_9_10) = count_of "10 A" (present col_9_10) /\
  nth_error col_9_10 0 = Some (Some "9 B") /\
  impute_column (ObjectCol col_9_10) =
    ObjectCol [Some "9 B"; Some "10 A"; Some "9 B"; Some "10 A"; Some "10 A"] /\
  @extract_code int_runtime "10 A" = Some 10 /\
  @extract_code int_runtime "9 B" = Some 9.
Proof. vm_compute. repeat split. Qed.

(** ** Correlation filtering *)

Lemma upper_scan_spec (corr : string -> string -> Q) (cols seen : list string) (c : string) :
  In c (upper_scan corr seen cols) <->
  exists l1 l2, cols = l1 ++ c :: l2 /\ existsb (over_threshold corr c) (seen ++ l1) = true.
Proof.
  revert seen. induction cols as [| a rest IH]; intro seen; simpl.
  - split; [contradiction|]. intros (l1 & l2 & E & _).
    destruct l1; discriminate.
  - rewrite in_app_iff, IH. split.
    + intros [Hh | (l1 & l2 & -> & Hx)].
      * destruct (existsb _ seen) eqn:E; [|contradiction].
        destruct Hh as [<- | []].
        exists [], rest. rewrite app_nil_r. split; [reflexivity | exact E].
      * exists (a :: l1), l2. rewrite <- app_assoc in Hx. split; [reflexivity | exact Hx].
    + intros ([| b l1] & l2 & E & Hx).
      * simpl in E. injection E as <- <-. rewrite app_nil_r in Hx.
        left. unfold over_threshold in Hx. rewrite Hx. left. reflexivity.
      * simpl in E. injection E as <- ->. right. exists l1, l2.
        rewrite <- app_assoc. split; [reflexivity | exact Hx].
Qed.

Lemma filter_compose {A} (f g : A -> bool) (l : list A) :
  filter g (filter f l) = filter (fun x => f x && g x)%bool l.
Proof.
  induction l as [| a r IH]; simpl; [reflexivity|].
  destruct (f a); simpl; [destruct (g a); simpl|]; rewrite IH; reflexivity.
Qed.

Lemma selected_features_ext (df_cols df_cols' : list string) :
  (forall c, In c df_cols <-> In c df_cols') ->
  selected_features df_cols = selected_features df_cols'.
Proof.
  intro Hs. unfold selected_features. apply filter_ext. intro c.
  apply eq_true_iff_eq. rewrite !existsb_exists.
  split; intros (x & Hx & Ex); exists x; apply String.eqb_eq in Ex; subst x;
    (split; [apply Hs; assumption | apply String.eqb_refl]).
Qed.

(** C8 (corrected). The filter has no priority configuration of its own:
    the dropped columns are those correlated above 0.85 with some column
    before them in the feature table (dropped or not), whose order is the
    hard-coded candidate list whatever the column order of the input.  That
    list places cost_burden_ratio before affordability_status and ZINC2
    before FMTINCRELAMICAT, so when such a pair is over the threshold the
    categorical-coded column is dropped.  The first printed line lists the
    dropped columns, and the final features are the feature columns not
    dropped. *)
Theorem corr_drop_later_in_candidates (df_cols df_cols' : list string)
  (missing_ratio : string -> Q) (corr : string -> string -> Q) :
  ((forall c, In c df_cols <-> In c df_cols') ->
     refine_to_drop df_cols missing_ratio corr = refine_to_drop df_cols' missing_ratio corr) /\
  (forall c, In c (refine_to_drop df_cols missing_ratio corr) <->
     exists l1 l2, feature_columns df_cols missing_ratio = l1 ++ c :: l2 /\
       exists r, In r l1 /\ 85#100 < Qabs (corr r c)) /\
  (forall a b, (a, b) = ("cost_burden_ratio", "affordability_status") \/
               (a, b) = ("ZINC2", "FMTINCRELAMICAT") ->
     In a (feature_columns df_cols missing_ratio) ->
     In b (feature_columns df_cols missing_ratio) ->
     85#100 < Qabs (corr a b) ->
     In b (refine_to_drop df_cols missing_ratio corr)) /\
  hd "" (fst (refine_corr_step df_cols missing_ratio corr)) =
    ("  High correlation features to drop (>0.85): "
       ++ py_str_list (refine_to_drop df_cols missing_ratio corr))%string /\
  (forall c, In c (snd (refine_corr_step df_cols missing_ratio corr)) <->
     In c (feature_columns df_cols missing_ratio) /\
     ~ In c (refine_to_drop df_cols missing_ratio corr)).
Proof.
  split.
  { intro Hs. unfold refine_to_drop, feature_columns.
    rewrite (selected_features_ext _ _ Hs). reflexivity. }
  assert (Hchar : forall c, In c (refine_to_drop df_cols missing_ratio corr) <->
     exists l1 l2, feature_columns df_cols missing_ratio = l1 ++ c :: l2 /\
       exists r, In r l1 /\ 85#100 < Qabs (corr r c)).
  { intro c. unfold refine_to_drop, to_drop. rewrite upper_scan_spec.
    split; intros (l1 & l2 & E & Hx); exists l1, l2; split; try exact E; simpl in *.
    - apply existsb_exists in Hx. destruct Hx as (r & Hr & Hq).
      exists r. split; [exact Hr | apply qltb_true, Hq].
    - apply existsb_exists. destruct Hx as (r & Hr & Hq).
      exists r. split; [exact Hr | apply qltb_true, Hq]. }
  split; [exact Hchar|].
  split; [|split; [reflexivity|]].
  2: { intro c. unfold refine_corr_step, refine_to_drop. cbv zeta. cbn [snd].
       rewrite filter_In, negb_true_iff. split.
       - intros [Hc Hx]. split; [exact Hc|]. intro Hd.
         assert (Ht : existsb (String.eqb c) (to_drop corr (feature_columns df_cols missing_ratio)) = true)
           by (apply existsb_exists; exists c; split; [exact Hd | apply String.eqb_refl]).
         congruence.
       - intros [Hc Hd]. split; [exact Hc|].
         destruct (existsb _ _) eqn:Ex; [|reflexivity]. exfalso.
         apply existsb_exists in Ex. destruct Ex as (x & Hx & Ex).
         apply String.eqb_eq in Ex. subst x. contradiction. }
  intros a b Hab Ha Hb Hc. apply Hchar.
  set (P := fun c => negb (qltb (3#10) (missing_ratio c))).
  set (S := fun c => existsb (String.eqb c) df_cols).
  assert (Hfc : feature_columns df_cols missing_ratio =
                filter (fun c => S c && P c)%bool candidates).
  { unfold feature_columns, selected_features. rewrite filter_compose.
    apply filter_ext. intro c. reflexivity. }
  assert (Hsplit : exists l1 l2 l3, candidates = l1 ++ a :: l2 ++ b :: l3).
  { destruct Hab as [E | E]; injection E as -> ->.
    - exists ["ZINC2"; "COSTMED"; "VALUE"; "FMR"], [],
        ["AGE1"; "PER"; "BEDRMS"; "ROOMS"; "FMTSTRUCTURETYPE"; "FMTOWNRENT"; "FMTSTATUS";
         "REGION"; "METRO3"; "Locality_Label"; "FMTINCRELAMICAT"]. reflexivity.
    - exists [], ["COSTMED"; "VALUE"; "FMR"; "cost_burden_ratio"; "affordability_status";
        "AGE1"; "PER"; "BEDRMS"; "ROOMS"; "FMTSTRUCTURETYPE"; "FMTOWNRENT"; "FMTSTATUS";
        "REGION"; "METRO3"; "Locality_Label"], []. reflexivity. }
  destruct Hsplit as (l1 & l2 & l3 & Hcand).
  rewrite Hfc in Ha, Hb |- *. rewrite Hcand in Ha, Hb |- *.
  apply filter_In in Ha. destruct Ha as [_ Hpa].
  apply filter_In in Hb. destruct Hb as [_ Hpb].
  rewrite filter_app. simpl. rewrite Hpa, filter_app. simpl. rewrite Hpb.
  exists (filter (fun c => S c && P c)%bool l1 ++ a :: filter (fun c => S c && P c)%bool l2),
         (filter (fun c => S c && P c)%bool l3).
  split.
  - rewrite <- !app_assoc. reflexivity.
  - exists a. split; [apply in_or_app; right; left; reflexivity | exact Hc].
Qed.

(** C8 refuted as stated: COSTMED, cost_burden_ratio and
    affordability_status, in the candidate order with no missing values and
    a valid (symmetric, positive definite) correlation matrix, lose both the
    ratio and the status derived from it.  The continuous ratio is not kept
    over its coded derivative; it is dropped because an earlier column,
    COSTMED, correlates with it above 0.85. *)
Lemma corr_drop_continuous_with_derivative :
  feature_columns chain_cols (fun _ => 0) = chain_cols /\
  refine_to_drop chain_cols (fun _ => 0) corr_chain = ["cost_burden_ratio"; "affordability_status"] /\
  snd (refine_corr_step chain_cols (fun _ => 0) corr_chain) = ["COSTMED"] /\
  (forall x y, In x chain_cols -> In y chain_cols -> corr_chain x y = corr_chain y x) /\
  (let r12 := corr_chain "COSTMED" "cost_burden_ratio" in
   let r23 := corr_chain "cost_burden_ratio" "affordability_status" in
   let r13 := corr_chain "COSTMED" "affordability_status" in
   0 < 1 - r12 * r12 /\ 0 < 1 + 2 * r12 * r13 * r23 - r12 * r12 - r13 * r13 - r23 * r23).
Proof.
  split; [reflexivity|]. split; [reflexivity|]. split; [reflexivity|].
  split.
  - intros x y Hx Hy. simpl in Hx, Hy.
    destruct Hx as [<- | [<- | [<- | []]]]; destruct Hy as [<- | [<- | [<- | []]]]; reflexivity.
  - cbv zeta. split; vm_compute; reflexivity.
Qed.

(** ** Choice of k *)

Lemma argmax_from_spec (l : list Q) : forall (pre : list Q) (bi : nat),
  (bi < length pre)%nat ->
  (forall j, (j < length pre)%nat -> nth j pre 0 <= nth bi pre 0) ->
  (forall j, (j < bi)%nat -> nth j pre 0 < nth bi pre 0) ->
  let r := argmax_from (length pre) bi (nth bi pre 0) l in
  (r < length (pre ++ l))%nat /\
  (forall j, (j < length (pre ++ l))%nat -> nth j (pre ++ l) 0 <= nth r (pre ++ l) 0) /\
  (forall j, (j < r)%nat -> nth j (pre ++ l) 0 < nth r (pre ++ l) 0).
Proof.
  induction l as [| x rest IH]; intros pre bi Hbi Hle Hlt; simpl.
  - rewrite app_nil_r. auto.
  - set (pre' := pre ++ [x]).
    assert (Hlen : length pre' = S (length pre)) by (unfold pre'; rewrite length_app; simpl; lia).
    assert (Hold : forall j, (j < length pre)%nat -> nth j pre' 0 = nth j pre 0)
      by (intros j Hj; unfold pre'; apply app_nth1; exact Hj).
    assert (Hnew : nth (length pre) pre' 0 = x)
      by (unfold pre'; rewrite app_nth2, Nat.sub_diag by lia; reflexivity).
    replace (pre ++ x :: rest) with (pre' ++ rest) by (unfold pre'; rewrite <- app_assoc; reflexivity).
    destruct (qltb (nth bi pre 0) x) eqn:E; qbools.
    + rewrite <- Hlen, <- Hnew.
      apply IH; rewrite ?Hlen; [lia| |].
      * intros j Hj. rewrite Hnew. destruct (Nat.eq_dec j (length pre)) as [-> | Hne].
        -- rewrite Hnew. apply Qle_refl.
        -- rewrite Hold by lia. apply Qle_trans with (nth bi pre 0); [apply Hle; lia | apply Qlt_le_weak, E].
      * intros j Hj. rewrite Hnew, Hold by lia.
        apply Qle_lt_trans with (nth bi pre 0); [apply Hle; lia | exact E].
    + rewrite <- Hlen. rewrite <- (Hold bi Hbi).
      apply IH; rewrite ?Hlen; [lia| |].
      * intros j Hj. rewrite (Hold bi Hbi). destruct (Nat.eq_dec j (length pre)) as [-> | Hne].
        -- rewrite Hnew. exact E.
        -- rewrite Hold by lia. apply Hle; lia.
      * intros j Hj. rewrite (Hold bi Hbi), Hold by lia. apply Hlt; exact Hj.
Qed.

Lemma argmax_spec (l : list Q) :
  l <> [] ->
  (argmax l < length l)%nat /\
  (forall j, (j < length l)%nat -> nth j l 0 <= nth (argmax l) l 0) /\
  (forall j, (j < argmax l)%nat -> nth j l 0 < nth (argmax l) l 0).
Proof.
  destruct l as [| x r]; [contradiction|]. intros _.
  pose proof (argmax_from_spec r [x] O) as Hs. simpl in Hs.
  apply Hs; [lia | | lia].
  intros j Hj. destruct j; [apply Qle_refl | lia].
Qed.

Lemma K_range_nth (j : nat) : (j < 9)%nat -> nth j K_range 0%Z = (Z.of_nat j + 2)%Z.
Proof.
  intro Hj. do 9 (destruct j as [| j]; [reflexivity|]). lia.
Qed.

(** C9. The chosen k lies in [2, 10], has the largest silhouette score of
    the range, and every smaller k of the range scores strictly less (ties
    go to the smallest k); the inertia curve does not affect the choice. *)
Theorem optimal_k_first_max (inertia_of silhouette_of : Z -> Q) :
  let k := optimal_k (k_search inertia_of silhouette_of) in
  In k K_range /\
  (forall k', In k' K_range -> silhouette_of k' <= silhouette_of k) /\
  (forall k', In k' K_range -> (k' < k)%Z -> silhouette_of k' < silhouette_of k) /\
  (forall inertia', optimal_k (k_search inertia' silhouette_of) = k).
Proof.
  cbv zeta. unfold optimal_k, k_search. cbn [snd].
  set (sils := map silhouette_of K_range).
  assert (Hlen : length sils = 9%nat) by reflexivity.
  destruct (argmax_spec sils) as (Hr & Hle & Hlt); [discriminate|].
  rewrite Hlen in Hr, Hle.
  set (r := argmax sils) in *.
  assert (Hs : forall j, (j < 9)%nat -> nth j sils 0 = silhouette_of (nth j K_range 0%Z)).
  { intros j Hj. unfold sils. rewrite (nth_indep _ 0 (silhouette_of 0%Z)) by (rewrite length_map; exact Hj).
    apply map_nth. }
  split; [apply nth_In; exact Hr|].
  split; [|split; [|reflexivity]].
  - intros k' Hk'. apply In_nth with (d := 0%Z) in Hk'. destruct Hk' as (j & Hj & <-).
    rewrite <- !Hs by assumption. apply Hle. exact Hj.
  - intros k' Hk' Hlt'. apply In_nth with (d := 0%Z) in Hk'. destruct Hk' as (j & Hj & <-).
    change (length K_range) with 9%nat in Hj.
    rewrite !K_range_nth in Hlt' by assumption.
    rewrite <- !Hs by assumption. apply Hlt. lia.
Qed.

(** * Further properties *)

(** ** The feature vector *)

Lemma status_slot (inc cst ag beds : Q) :
  nth 5 (fst (build_features inc cst ag beds)) 0 =
  (let b := snd (build_features inc cst ag beds) in
   if qltb b (3#10) then 1 else if Qle_bool b (1#2) then 2 else 3).
Proof. reflexivity. Qed.

Lemma ami_slot (inc cst ag beds : Q) :
  nth 14 (fst (build_features inc cst ag beds)) 0 =
  (let r := inc / 70000 in
   if qltb r (3#10) then 1 else if qltb r (1#2) then 2
   else if qltb r (8#10) then 3 else 4).
Proof. reflexivity. Qed.

Lemma py_max_1_ge (inc : Q) : 1 <= py_max inc 1 /\ inc <= py_max inc 1.
Proof. rewrite burden_divisor. destruct (qltb inc 1) eqn:E; qbools; lra. Qed.

Lemma py_max_1_mono (i1 i2 : Q) : i1 <= i2 -> py_max i1 1 <= py_max i2 1.
Proof.
  intro H. rewrite !burden_divisor.
  destruct (qltb i1 1) eqn:E1; destruct (qltb i2 1) eqn:E2; qbools; lra.
Qed.

(** The affordability status code of the feature vector (slot 5) is 1, 2
    or 3, and it never decreases when the burden ratio grows. *)
Theorem status_code_monotone (i1 c1 a1 b1 i2 c2 a2 b2 : Q)
  (Hle : snd (build_features i1 c1 a1 b1) <= snd (build_features i2 c2 a2 b2)) :
  let s1 := nth 5 (fst (build_features i1 c1 a1 b1)) 0 in
  let s2 := nth 5 (fst (build_features i2 c2 a2 b2)) 0 in
  (s1 = 1 \/ s1 = 2 \/ s1 = 3) /\ s1 <= s2.
Proof.
  cbv zeta. rewrite !status_slot. cbv zeta.
  revert Hle.
  generalize (snd (build_features i1 c1 a1 b1)) (snd (build_features i2 c2 a2 b2)).
  intros x y Hle. qcases;
    (split; [first [left; reflexivity | right; left; reflexivity | right; right; reflexivity] | lra]).
Qed.

(** The AMI category of the feature vector (slot 14) is 1, 2, 3 or 4, and
    it never decreases when the income grows. *)
Theorem ami_category_monotone (i1 c1 a1 b1 i2 c2 a2 b2 : Q) (Hle : i1 <= i2) :
  let m1 := nth 14 (fst (build_features i1 c1 a1 b1)) 0 in
  let m2 := nth 14 (fst (build_features i2 c2 a2 b2)) 0 in
  (m1 = 1 \/ m1 = 2 \/ m1 = 3 \/ m1 = 4) /\ m1 <= m2.
Proof.
  cbv zeta. rewrite !ami_slot. cbv zeta.
  assert (Hr : i1 / 70000 <= i2 / 70000).
  { unfold Qdiv. apply Qmult_le_compat_r; [exact Hle | apply Qinv_le_0_compat; lra]. }
  revert Hr. generalize (i1 / 70000) (i2 / 70000). intros x y Hr.
  qcases;
    (split; [first [left; reflexivity | right; left; reflexivity
                   | right; right; left; reflexivity | right; right; right; reflexivity] | lra]).
Qed.

(** The structure-type and tenure codes of the feature vector are always
    equal: 1 exactly when the income exceeds 65000, 2 otherwise; an income
    above 65000 always falls in the top AMI category 4. *)
Theorem tenure_structure_codes (inc cst ag beds : Q) :
  let v := fst (build_features inc cst ag beds) in
  nth 10 v 0 = nth 11 v 0 /\
  (nth 11 v 0 = 1 <-> 65000 < inc) /\
  (nth 11 v 0 = 2 <-> inc <= 65000) /\
  (65000 < inc -> nth 14 v 0 = 4).
Proof.
  cbv zeta. rewrite ami_slot. cbv zeta. cbn [build_features fst nth].
  destruct (qltb 65000 inc) eqn:E; qbools.
  - split; [reflexivity|]. split; [split; [intros _; exact E | reflexivity]|].
    split; [split; [discriminate | intro; lra]|].
    intros _.
    assert (H8 : 8#10 <= inc / 70000) by (apply Qle_shift_div_l; lra).
    assert (F1 : qltb (inc / 70000) (3#10) = false) by (apply qltb_false; lra).
    assert (F2 : qltb (inc / 70000) (1#2) = false) by (apply qltb_false; lra).
    assert (F3 : qltb (inc / 70000) (8#10) = false) by (apply qltb_false; lra).
    rewrite F1, F2, F3. reflexivity.
  - split; [reflexivity|]. split; [split; [discriminate | intro; lra]|].
    split; [split; [intros _; exact E | reflexivity]|].
    intro; lra.
Qed.

(** For a non-negative cost, the burden ratio never increases when the
    income grows; for a fixed income it never decreases when the cost
    grows.  Age and bedrooms play no part. *)
Theorem burden_ratio_monotone (i1 i2 c1 c2 a b a' b' : Q) :
  (0 <= c1 -> i1 <= i2 -> snd (build_features i2 c1 a b) <= snd (build_features i1 c1 a' b')) /\
  (c1 <= c2 -> snd (build_features i1 c1 a b) <= snd (build_features i1 c2 a' b')).
Proof.
  cbn [build_features snd]. split.
  - intros Hc Hi.
    destruct (py_max_1_ge i1) as [H1 _]. destruct (py_max_1_ge i2) as [H2 _].
    pose proof (py_max_1_mono i1 i2 Hi) as Hd.
    set (d1 := py_max i1 1) in *. set (d2 := py_max i2 1) in *.
    set (u := c1 * 12 / d2).
    assert (Hu : d2 * u == c1 * 12) by (apply Qmult_div_r; lra).
    assert (Hu0 : 0 <= u).
    { unfold u, Qdiv. apply Qmult_le_0_compat; [lra | apply Qinv_le_0_compat; lra]. }
    apply Qle_shift_div_l; [lra|]. nra.
  - intro Hc. unfold Qdiv. apply Qmult_le_compat_r; [lra|].
    apply Qinv_le_0_compat. destruct (py_max_1_ge i1). lra.
Qed.

(** ** The handler *)

Section HandlerExtra.
Context `{PyRuntime}.

Lemma age_step_anomaly (raw : option json) (a : Q) :
  age_step raw = inr (a, true) -> a = AGE_MEDIAN.
Proof.
  unfold age_step.
  destruct raw as [[| b | q | s | l | kv] |]; intro E;
    repeat match type of E with
    | context [if ?c then _ else _] => destruct c
    | context [match ?x with _ => _ end] => destruct x
    end; congruence.
Qed.

(** An age outside [18, 110] is replaced by the median: the request is
    parsed as the same request without an age, except for the anomaly, so
    the feature vector is the same and, for every model, the status code
    and the cluster, ratio, label and recommendation entries agree. *)
Theorem out_of_range_age_as_absent (req : request) (p : parsed)
  (Hp : parse_request req = inr p) (Ha : p_age_anomaly p = true) :
  let req0 := mkRequest (r_income req) (r_cost req) (r_bedrooms req) None in
  exists p0, parse_request req0 = inr p0 /\ p_age_anomaly p0 = false /\
    primary p = primary p0 /\
    forall assign,
      status_code (predict (Some assign) req) = status_code (predict (Some assign) req0) /\
      forall k, In k ["cluster"; "cost_burden_ratio"; "cost_burden_label"; "recommendation"] ->
        assoc k (ok_body (predict (Some assign) req)) =
        assoc k (ok_body (predict (Some assign) req0)).
Proof.
  cbv zeta. unfold predict. rewrite Hp.
  unfold parse_request in *. cbn [r_income r_cost r_bedrooms r_age age_step].
  destruct (py_float (get_or (r_income req) (JNum 50000))) as [e | inc]; [discriminate|].
  destruct (py_float (get_or (r_cost req) (JNum 1000))) as [e | cst]; [discriminate|].
  destruct (py_float (get_or (r_bedrooms req) (JNum 3))) as [e | beds]; [discriminate|].
  destruct (age_step (r_age req)) as [e | [ag an]] eqn:Eage; [discriminate|].
  injection Hp as <-. simpl in Ha. subst an.
  apply age_step_anomaly in Eage. subst ag.
  eexists. split; [reflexivity|]. split; [reflexivity|]. split; [reflexivity|].
  intro assign. unfold respond.
  change (primary (mkParsed inc cst beds AGE_MEDIAN true (r_age req)))
    with (primary (mkParsed inc cst beds AGE_MEDIAN false None)).
  destruct (primary (mkParsed inc cst beds AGE_MEDIAN false None)) as [vec b].
  destruct (policy_lookup (assign vec)) as [[lbl pol]|].
  - split; [reflexivity|]. intros k Hk.
    simpl in Hk. destruct Hk as [<- | [<- | [<- | [<- | []]]]]; reflexivity.
  - split; reflexivity.
Qed.

(** The reported burden ratio, its label and the monthly-income heuristic
    depend only on income and cost: two successful responses for the same
    income and cost agree on them whatever the age and the bedrooms. *)
Theorem burden_independent_of_age_and_beds (assign : list Q -> Z) (p1 p2 : parsed)
  (b1 b2 : list (string * json))
  (H1 : respond assign p1 = Ok200 b1) (H2 : respond assign p2 = Ok200 b2)
  (Hi : p_income p1 = p_income p2) (Hc : p_cost p1 = p_cost p2) :
  assoc "cost_burden_ratio" b1 = assoc "cost_burden_ratio" b2 /\
  assoc "cost_burden_label" b1 = assoc "cost_burden_label" b2 /\
  possible_monthly p1 = possible_monthly p2.
Proof.
  apply respond_ok in H1. destruct H1 as (l1 & q1 & _ & ->).
  apply respond_ok in H2. destruct H2 as (l2 & q2 & _ & ->).
  rewrite !nth4_primary.
  assert (Hb : snd (primary p1) = snd (primary p2))
    by (unfold primary; cbn [build_features snd]; rewrite Hi, Hc; reflexivity).
  unfold possible_monthly. rewrite Hb, Hi, Hc.
  simpl. repeat split; reflexivity.
Qed.

(** The anomaly flag of a successful response is set exactly when the age
    was out of range or the monthly-income heuristic fired; an out-of-range
    age makes the age message the first reason. *)
Theorem anomaly_flag_sources (assign : list Q -> Z) (p : parsed)
  (body : list (string * json)) (Hok : respond assign p = Ok200 body) :
  assoc "anomaly_flag" body = Some (JBool (p_age_anomaly p || possible_monthly p)) /\
  (p_age_anomaly p = true ->
     exists rest, assoc "anomaly_reasons" body =
       Some (JArr (JStr (age_msg (p_raw_age p)) :: rest))).
Proof.
  apply respond_ok in Hok. destruct Hok as (lbl & pol & _ & ->).
  unfold anomalies. split.
  - simpl. destruct (p_age_anomaly p), (possible_monthly p); reflexivity.
  - intro Ha. rewrite Ha. eexists. reflexivity.
Qed.

(** The response label agrees with the status code of the feature vector:
    "High" only for status 2 or 3, status 1 always gives "Affordable" and
    status 3 always gives "High". *)
Theorem burden_label_matches_status (assign : list Q -> Z) (p : parsed)
  (body : list (string * json)) (Hok : respond assign p = Ok200 body) :
  let s := nth 5 (fst (primary p)) 0 in
  (assoc "cost_burden_label" body = Some (JStr "High") -> s = 2 \/ s = 3) /\
  (s = 1 -> assoc "cost_burden_label" body = Some (JStr "Affordable")) /\
  (s = 3 -> assoc "cost_burden_label" body = Some (JStr "High")).
Proof.
  apply respond_ok in Hok. destruct Hok as (lbl & pol & _ & ->).
  cbv zeta. simpl assoc. unfold primary. cbn [build_features fst snd nth].
  set (r := p_cost p * 12 / py_max (p_income p) 1).
  qcases; repeat split; intro E;
    first [ discriminate | reflexivity | (left; reflexivity) | (right; reflexivity)
          | (exfalso; lra) ].
Qed.

End HandlerExtra.

(** ** Cleaning and refinement *)

Lemma in_present {A} (x : A) (col : list (option A)) :
  In x (present col) <-> In (Some x) col.
Proof.
  unfold present. rewrite in_flat_map. split.
  - intros ([y|] & Ho & Hx); simpl in Hx; [destruct Hx as [<- | []]; exact Ho | contradiction].
  - intro H. exists (Some x). split; [exact H | left; reflexivity].
Qed.

Lemma median_mid (col : list (option Q)) (m : Q) :
  median col = Some m ->
  exists a b, In a (present col) /\ In b (present col) /\ m == (a + b) * (1#2).
Proof.
  intro E. unfold median in E.
  set (s := sort_le Qle_bool (present col)) in E.
  assert (Hs : forall i, (i < length s)%nat -> In (nth i s 0) (present col)).
  { intros i Hi. apply (in_sort_le Qle_bool). apply nth_In. exact Hi. }
  destruct (length s) as [| n] eqn:Hn; [discriminate|].
  pose proof (Nat.lt_div2 (S n) ltac:(lia)) as Hd.
  destruct (Nat.even (S n)).
  - assert (Em : (nth (Nat.div2 (S n) - 1) s 0 + nth (Nat.div2 (S n)) s 0) / 2 = m)
      by congruence. subst m.
    exists (nth (Nat.div2 (S n) - 1) s 0), (nth (Nat.div2 (S n)) s 0).
    split; [apply Hs; lia|]. split; [apply Hs; lia|].
    unfold Qdiv. change (/ 2) with (1#2). reflexivity.
  - assert (Em : nth (Nat.div2 (S n)) s 0 = m) by congruence. subst m.
    exists (nth (Nat.div2 (S n)) s 0), (nth (Nat.div2 (S n)) s 0).
    split; [apply Hs; lia|]. split; [apply Hs; lia|]. lra.
Qed.

Lemma median_some (col : list (option Q)) :
  present col <> [] -> exists m, median col = Some m.
Proof.
  intro Hne. unfold median.
  destruct (present col) as [| x r]; [contradiction|].
  assert (Hx : In x (sort_le Qle_bool (x :: r))) by (apply in_sort_le; left; reflexivity).
  destruct (sort_le Qle_bool (x :: r)) as [| y s]; [contradiction|].
  cbn [length]. destruct (Nat.even (S (length s))); eexists; reflexivity.
Qed.

Lemma present_clean_nonneg (col : list (option Q)) (x : Q) :
  In x (present (clean_negatives col)) -> 0 <= x.
Proof.
  rewrite in_present. unfold clean_negatives. rewrite in_map_iff.
  intros ([y|] & E & _); [|discriminate].
  destruct (qltb y 0) eqn:Ey; [discriminate|]. injection E as ->. qbools. exact Ey.
Qed.

Lemma count_missing_all {A} (col : list (option A)) :
  Forall (fun o => o = None) col -> length (filter is_missing col) = length col.
Proof.
  induction 1 as [| o r Ho _ IH]; [reflexivity|]. subst o. simpl. rewrite IH. reflexivity.
Qed.

Lemma count_missing_none {A} (col : list (option A)) :
  Forall (fun o => o <> None) col -> length (filter is_missing col) = O.
Proof.
  induction 1 as [| o r Ho _ IH]; [reflexivity|].
  destruct o as [x|]; [exact IH | contradiction].
Qed.

(** The missing-column drop keeps only columns of the frame whose missing
    ratio is at most 0.3 (or that have no rows, whose ratio is NaN); a
    column with rows that are all missing is always dropped, and a column
    with no missing cell is always kept. *)
Theorem drop_missing_cols_spec {A} (df : list (string * list (option A))) :
  (forall n col, In (n, col) (drop_missing_cols df) ->
     In (n, col) df /\
     (col = [] \/ exists r, missing_ratio_col col = Some r /\ r <= 3#10)) /\
  (forall n col, In (n, col) df -> col <> [] -> Forall (fun o => o = None) col ->
     ~ In (n, col) (drop_missing_cols df)) /\
  (forall n col, In (n, col) df -> Forall (fun o => o <> None) col ->
     In (n, col) (drop_missing_cols df)).
Proof.
  unfold drop_missing_cols. split; [|split].
  - intros n col Hin. apply filter_In in Hin. destruct Hin as [Hin Hk].
    split; [exact Hin|]. cbn [snd] in Hk.
    destruct col as [| o r]; [left; reflexivity|]. right.
    unfold missing_ratio_col in Hk |- *. cbn [length] in Hk |- *.
    eexists. split; [reflexivity|]. apply negb_true_iff, qltb_false in Hk. exact Hk.
  - intros n col Hin Hne Hall Hin'. apply filter_In in Hin'. destruct Hin' as [_ Hk].
    cbn [snd] in Hk. unfold missing_ratio_col in Hk. rewrite (count_missing_all col Hall) in Hk.
    destruct (length col) as [| k] eqn:Hl; [destruct col; [contradiction | discriminate]|].
    apply negb_true_iff, qltb_false in Hk.
    assert (Hq : ~ inject_Z (Z.of_nat (S k)) == 0).
    { change 0 with (inject_Z 0). rewrite inject_Z_injective. lia. }
    pose proof (Qmult_inv_r _ Hq) as E. unfold Qdiv in Hk. lra.
  - intros n col Hin Hall. apply filter_In. split; [exact Hin|]. cbn [snd].
    unfold missing_ratio_col. rewrite (count_missing_none col Hall).
    destruct (length col); [reflexivity|].
    apply negb_true_iff, qltb_false. unfold Qdiv. rewrite Qmult_0_l. lra.
Qed.

(** When a column has a value, median filling leaves no missing cell and
    keeps the length, and every cell lies within any bounds of the
    column's present values. *)
Theorem median_fill_complete_and_bounded (col : list (option Q)) (lo hi : Q)
  (Hne : present col <> [])
  (Hb : forall x, In (Some x) col -> lo <= x <= hi) :
  length (fill_median col) = length col /\
  Forall (fun o => exists x, o = Some x /\ lo <= x <= hi) (fill_median col).
Proof.
  destruct (median_some col Hne) as [m Hm].
  assert (Hmb : lo <= m <= hi).
  { destruct (median_mid col m Hm) as (a & b & Ha & Hb' & Em).
    apply in_present, Hb in Ha. apply in_present, Hb in Hb'. lra. }
  unfold fill_median. rewrite Hm. split; [apply length_map|].
  apply Forall_forall. intros o Ho. apply in_map_iff in Ho.
  destruct Ho as ([x|] & <- & Hx).
  - exists x. split; [reflexivity | apply Hb, Hx].
  - exists m. split; [reflexivity | exact Hmb].
Qed.

(** Negative-placeholder removal followed by median filling, on a column
    with some non-negative value, yields a column of the same length in
    which every cell is present and non-negative. *)
Theorem clean_then_fill_nonnegative (col : list (option Q))
  (Hv : exists x, In (Some x) col /\ 0 <= x) :
  length (fill_median (clean_negatives col)) = length col /\
  Forall (fun o => exists x, o = Some x /\ 0 <= x) (fill_median (clean_negatives col)).
Proof.
  set (c := clean_negatives col).
  assert (Hne : present c <> []).
  { destruct Hv as (x & Hx & Hx0). intro E.
    assert (Hc : In x (present c)).
    { apply in_present. unfold c, clean_negatives. apply in_map_iff.
      exists (Some x). split; [|exact Hx].
      destruct (qltb x 0) eqn:Ex; qbools; [lra | reflexivity]. }
    rewrite E in Hc. contradiction. }
  destruct (median_some c Hne) as [m Hm].
  assert (Hm0 : 0 <= m).
  { destruct (median_mid c m Hm) as (a & b & Ha & Hb & Em).
    apply present_clean_nonneg in Ha. apply present_clean_nonneg in Hb. lra. }
  unfold fill_median. rewrite Hm. split; [unfold c, clean_negatives; rewrite !length_map; reflexivity|].
  apply Forall_forall. intros o Ho. apply in_map_iff in Ho.
  destruct Ho as ([x|] & <- & Hx).
  - exists x. split; [reflexivity|]. apply (present_clean_nonneg col), in_present, Hx.
  - exists m. split; [reflexivity | exact Hm0].
Qed.

Lemma pd_mode_in (col : list (option string)) (v : string) :
  In v (pd_mode col) ->
  In v (present col).
Proof.
  unfold pd_mode. rewrite in_sort_le, nodup_In, filter_In. tauto.
Qed.

Lemma pd_mode_nonempty (col : list (option string)) :
  present col <> [] -> pd_mode col <> [].
Proof.
  intros Hne Hnil.
  set (vals := present col) in *.
  set (f := fun v => count_of v vals).
  destruct (fold_max_attained f vals Hne) as (w & Hw & Hfw).
  assert (Hw' : In w (pd_mode col)).
  { unfold pd_mode. fold vals. rewrite in_sort_le, nodup_In, filter_In, Nat.eqb_eq.
    split; [exact Hw | exact Hfw]. }
  rewrite Hnil in Hw'. contradiction.
Qed.

(** Mode filling leaves a column with no value unchanged (the empty-mode
    guard); otherwise it keeps the length and every cell holds a value that
    occurs in the column. *)
Theorem fill_mode_edge (col : list (option string)) :
  (present col = [] -> fill_mode col = col) /\
  (present col <> [] ->
     length (fill_mode col) = length col /\
     Forall (fun o => exists x, o = Some x /\ In (Some x) col) (fill_mode col)).
Proof.
  split.
  - intro E. unfold fill_mode, pd_mode. rewrite E. reflexivity.
  - intro Hne. unfold fill_mode.
    destruct (pd_mode col) as [| m rest] eqn:Em; [exfalso; exact (pd_mode_nonempty col Hne Em)|].
    assert (Hm : In m (present col)) by (apply pd_mode_in; rewrite Em; left; reflexivity).
    split; [apply length_map|].
    apply Forall_forall. intros o Ho. apply in_map_iff in Ho.
    destruct Ho as ([x|] & <- & Hx).
    + exists x. split; [reflexivity | exact Hx].
    + exists m. split; [reflexivity | apply in_present, Hm].
Qed.

Lemma first_token_app (t rest : string) :
  ~ In " "%char (list_ascii_of_string t) ->
  first_token (t ++ String " " rest) = t /\ first_token t = t.
Proof.
  induction t as [| c r IH]; intro Ht; [split; reflexivity|].
  simpl in Ht. simpl.
  destruct (Ascii.eqb c " ") eqn:E.
  - apply Ascii.eqb_eq in E. exfalso. apply Ht. left. exact E.
  - destruct IH as [H1 H2]; [intro Hr; apply Ht; right; exact Hr|].
    rewrite H1, H2. split; reflexivity.
Qed.

(** [extract_code] on "code label" converts exactly the code: for a token
    without spaces, the token followed by a space and any text, and the
    token alone, both give [float(token)]; a string starting with a space
    gives [float] of the empty string. *)
Theorem extract_code_leading_token `{PyRuntime} (t rest : string)
  (Ht : ~ In " "%char (list_ascii_of_string t)) :
  extract_code (t ++ String " " rest) = float_of_str t /\
  extract_code t = float_of_str t /\
  extract_code (String " " rest) = float_of_str "".
Proof.
  unfold extract_code. destruct (first_token_app t rest Ht) as [-> ->].
  split; [reflexivity | split; reflexivity].
Qed.

(** For integer REGION values and integer METRO3 values in [0, 9], the
    locality label REGION * 10 + METRO3 determines both values. *)
Theorem locality_label_injective (r1 m1 r2 m2 : Z)
  (Hm1 : (0 <= m1 <= 9)%Z) (Hm2 : (0 <= m2 <= 9)%Z)
  (Heq : locality_label (inject_Z r1) (inject_Z m1) == locality_label (inject_Z r2) (inject_Z m2)) :
  r1 = r2 /\ m1 = m2.
Proof.
  unfold locality_label, Qeq in Heq. simpl in Heq. lia.
Qed.

Lemma nodup_noise_split (l : list Z) :
  length (nodup Z.eq_dec l) =
  (length (nodup Z.eq_dec (filter (fun z => negb (Z.eqb z (-1))) l))
   + (if existsb (Z.eqb (-1)) l then 1 else 0))%nat.
Proof.
  induction l as [| a r IH]; [reflexivity|].
  assert (Hex : existsb (Z.eqb (-1)) r = true <-> In (-1)%Z r).
  { rewrite existsb_exists. split.
    - intros (x & Hx & Ex). apply Z.eqb_eq in Ex. subst x. exact Hx.
    - intro H. exists (-1)%Z. split; [exact H | apply Z.eqb_refl]. }
  cbn [nodup filter existsb].
  destruct (Z.eqb_spec a (-1)) as [-> | Ha].
  - rewrite Z.eqb_refl. cbn [negb orb].
    destruct (in_dec Z.eq_dec (-1)%Z r) as [Hin | Hnin].
    + rewrite IH, (proj2 Hex Hin). reflexivity.
    + cbn [length]. rewrite IH.
      assert (E : existsb (Z.eqb (-1)) r = false)
        by (apply not_true_iff_false; intro E; apply Hex in E; contradiction).
      rewrite E. lia.
  - assert (Hp : negb (Z.eqb a (-1)) = true) by (apply negb_true_iff, Z.eqb_neq, Ha).
    assert (Hq : Z.eqb (-1) a = false) by (apply Z.eqb_neq; lia).
    rewrite Hq. cbn [negb orb nodup].
    destruct (in_dec Z.eq_dec a r) as [Hin | Hnin];
      destruct (in_dec Z.eq_dec a (filter (fun z => negb (Z.eqb z (-1))) r)) as [Hin' | Hnin'].
    + exact IH.
    + exfalso. apply Hnin'. apply filter_In. split; [exact Hin | exact Hp].
    + exfalso. apply filter_In in Hin'. apply Hnin. apply Hin'.
    + cbn [length]. rewrite IH. lia.
Qed.

(** The reported number of DBSCAN clusters is the number of distinct labels
    other than the noise label -1. *)
Theorem dbscan_count_excludes_noise (labels : list Z) :
  n_dbscan_clusters labels =
  length (nodup Z.eq_dec (filter (fun z => negb (Z.eqb z (-1))) labels)).
Proof.
  unfold n_dbscan_clusters. rewrite nodup_noise_split.
  destruct (existsb (Z.eqb (-1)) labels); lia.
Qed.

(** In a feature table with distinct column names, the correlation filter
    never drops the first column, drops only later columns, and drops every
    later column correlated above 0.85 with the first one. *)
Theorem first_column_kept (corr : string -> string -> Q) (c0 : string) (rest : list string)
  (Hnd : NoDup (c0 :: rest)) :
  ~ In c0 (to_drop corr (c0 :: rest)) /\
  (forall c, In c (to_drop corr (c0 :: rest)) -> In c rest) /\
  (forall c, In c rest -> 85#100 < Qabs (corr c0 c) -> In c (to_drop corr (c0 :: rest))).
Proof.
  unfold to_drop. split; [|split].
  - rewrite upper_scan_spec. intros ([| b l1] & l2 & E & Hx); [discriminate|].
    simpl in E. injection E as <- Er. inversion Hnd as [| ? ? Hn _]. apply Hn.
    rewrite Er. apply in_or_app. right. left. reflexivity.
  - intros c. rewrite upper_scan_spec. intros ([| b l1] & l2 & E & Hx); [discriminate|].
    simpl in E. injection E as <- Er. rewrite Er. apply in_or_app. right. left. reflexivity.
  - intros c Hc Hcorr. apply in_split in Hc. destruct Hc as (l1 & l2 & Er).
    apply upper_scan_spec. exists (c0 :: l1), l2. split; [rewrite Er; reflexivity|].
    simpl. unfold over_threshold. apply orb_true_iff. left. apply qltb_true, Hcorr.
Qed.

(** For non-negative income and cost, the training burden ratio lies in
    [0, 3]; the training status is always 1, 2 or 3 and never decreases
    when the ratio grows. *)
Theorem training_metrics_bounded (zinc2 costmed : Q) (Hz : 0 <= zinc2) (Hc : 0 <= costmed) :
  0 <= training_burden zinc2 costmed <= 3 /\
  (let s := training_status (training_burden zinc2 costmed) in s = 1 \/ s = 2 \/ s = 3) /\
  (forall r1 r2, r1 <= r2 -> training_status r1 <= training_status r2).
Proof.
  split; [|split].
  - unfold training_burden.
    assert (Hd : 0 < (if Qeq_bool zinc2 0 then 1 else zinc2)).
    { destruct (Qeq_bool zinc2 0) eqn:E; [lra|].
      destruct (Qlt_le_dec 0 zinc2) as [Hlt | Hle]; [exact Hlt|].
      exfalso. assert (Hz0 : zinc2 == 0) by lra. apply Qeq_bool_iff in Hz0. congruence. }
    revert Hd. generalize (if Qeq_bool zinc2 0 then 1 else zinc2). intros d Hd.
    assert (Hr : 0 <= costmed * 12 / d).
    { unfold Qdiv. apply Qmult_le_0_compat; [lra | apply Qinv_le_0_compat; lra]. }
    revert Hr. generalize (costmed * 12 / d). intros r Hr. cbv zeta.
    qcases; lra.
  - cbv zeta. generalize (training_burden zinc2 costmed). intro r. unfold training_status.
    qcases; first [left; reflexivity | right; left; reflexivity | right; right; reflexivity].
  - intros r1 r2 Hle. unfold training_status. qcases; lra.
Qed.

(** * Witnesses *)

Lemma training_burden_is_clipped_inference_witness :
  (1300 == 0 \/ 1 <= 1300) /\
  training_burden 1300 800 = clip3 (snd (build_features 1300 800 35 3)) /\
  training_status (training_burden 1300 800) = nth 5 (fst (build_features 1300 800 35 3)) 0.
Proof.
  split; [right; lra|].
  apply (training_burden_is_clipped_inference 1300 800 35 3). right. lra.
Defined.

Lemma monthly_flag_without_alternative_witness :
  let o := @respond int_runtime (fun _ => 3%Z) parsed_1300_800 in
  (o = Ok200 (ok_body o) /\ possible_monthly parsed_1300_800 = true) /\
  (assoc "anomaly_flag" (ok_body o) = Some (JBool true) /\
   (exists l, assoc "anomaly_reasons" (ok_body o) = Some (JArr l) /\ In (JStr monthly_msg) l) /\
   map fst (ok_body o) = response_keys /\
   assoc "alternative_interpretation" (ok_body o) = None).
Proof.
  cbv zeta. split; [split; vm_compute; reflexivity|].
  apply (@monthly_flag_without_alternative int_runtime (fun _ => 3%Z) parsed_1300_800);
    vm_compute; reflexivity.
Defined.

Lemma high_burden_not_flagged_witness :
  let o := @predict int_runtime (Some (fun _ => 0%Z)) req_7000_1500 in
  o = Ok200 (ok_body o) /\
  (assoc "cost_burden_ratio" (ok_body o) = Some (JNum (18000 # 7000)) /\
   2 < 18000 # 7000 /\
   assoc "anomaly_reasons" (ok_body o) = Some (JArr []) /\
   assoc "anomaly_flag" (ok_body o) = Some (JBool false)).
Proof.
  cbv zeta. split; [vm_compute; reflexivity|].
  apply (@high_burden_not_flagged int_runtime (fun _ => 0%Z)). vm_compute. reflexivity.
Defined.

Lemma burden_label_two_values_witness :
  let o := @respond int_runtime (fun _ => 0%Z) parsed_40000_1000 in
  o = Ok200 (ok_body o) /\
  exists b,
    assoc "cost_burden_ratio" (ok_body o) = Some (JNum b) /\
    assoc "cost_burden_label" (ok_body o) =
      Some (JStr (if qltb (3#10) b then "High" else "Affordable")) /\
    (b == 3#10 ->
       assoc "cost_burden_label" (ok_body o) = Some (JStr "Affordable") /\
       nth 5 (fst (primary parsed_40000_1000)) 0 = 2).
Proof.
  cbv zeta. split; [vm_compute; reflexivity|].
  apply (@burden_label_two_values int_runtime (fun _ => 0%Z)). vm_compute. reflexivity.
Defined.

Lemma status_code_monotone_witness :
  snd (build_features 40000 1000 35 3) <= snd (build_features 1300 800 35 3) /\
  (let s1 := nth 5 (fst (build_features 40000 1000 35 3)) 0 in
   let s2 := nth 5 (fst (build_features 1300 800 35 3)) 0 in
   (s1 = 1 \/ s1 = 2 \/ s1 = 3) /\ s1 <= s2).
Proof.
  assert (H : snd (build_features 40000 1000 35 3) <= snd (build_features 1300 800 35 3))
    by (apply Qle_bool_iff; vm_compute; reflexivity).
  split; [exact H | apply (status_code_monotone 40000 1000 35 3 1300 800 35 3 H)].
Defined.

Lemma ami_category_monotone_witness :
  20000 <= 60000 /\
  (let m1 := nth 14 (fst (build_features 20000 1000 35 3)) 0 in
   let m2 := nth 14 (fst (build_features 60000 1000 35 3)) 0 in
   (m1 = 1 \/ m1 = 2 \/ m1 = 3 \/ m1 = 4) /\ m1 <= m2).
Proof.
  assert (H : 20000 <= 60000) by (apply Qle_bool_iff; reflexivity).
  split; [exact H | apply (ami_category_monotone 20000 1000 35 3 60000 1000 35 3 H)].
Defined.

Section ConcreteRuntime.
#[local] Existing Instance int_runtime.

Lemma out_of_range_age_as_absent_witness :
  (parse_request req_age_150 = inr parsed_age_150 /\ p_age_anomaly parsed_age_150 = true) /\
  (let req0 := mkRequest (r_income req_age_150) (r_cost req_age_150) (r_bedrooms req_age_150) None in
   exists p0, parse_request req0 = inr p0 /\ p_age_anomaly p0 = false /\
     primary parsed_age_150 = primary p0 /\
     forall assign,
       status_code (predict (Some assign) req_age_150) = status_code (predict (Some assign) req0) /\
       forall k, In k ["cluster"; "cost_burden_ratio"; "cost_burden_label"; "recommendation"] ->
         assoc k (ok_body (predict (Some assign) req_age_150)) =
         assoc k (ok_body (predict (Some assign) req0))).
Proof.
  split; [split; vm_compute; reflexivity|].
  apply (out_of_range_age_as_absent req_age_150 parsed_age_150); vm_compute; reflexivity.
Defined.

Lemma burden_independent_of_age_and_beds_witness :
  let o1 := respond (fun _ => 0%Z) parsed_40000_1000 in
  let o2 := respond (fun _ => 0%Z) parsed_40000_1000_b5 in
  (o1 = Ok200 (ok_body o1) /\ o2 = Ok200 (ok_body o2) /\
   p_income parsed_40000_1000 = p_income parsed_40000_1000_b5 /\
   p_cost parsed_40000_1000 = p_cost parsed_40000_1000_b5) /\
  (assoc "cost_burden_ratio" (ok_body o1) = assoc "cost_burden_ratio" (ok_body o2) /\
   assoc "cost_burden_label" (ok_body o1) = assoc "cost_burden_label" (ok_body o2) /\
   possible_monthly parsed_40000_1000 = possible_monthly parsed_40000_1000_b5).
Proof.
  cbv zeta. split; [repeat split; vm_compute; reflexivity|].
  apply (burden_independent_of_age_and_beds (fun _ => 0%Z) parsed_40000_1000 parsed_40000_1000_b5);
    vm_compute; reflexivity.
Defined.

Lemma anomaly_flag_sources_witness :
  let o := respond (fun _ => 0%Z) parsed_age_150 in
  o = Ok200 (ok_body o) /\
  (assoc "anomaly_flag" (ok_body o) =
     Some (JBool (p_age_anomaly parsed_age_150 || possible_monthly parsed_age_150)) /\
   (p_age_anomaly parsed_age_150 = true ->
      exists rest, assoc "anomaly_reasons" (ok_body o) =
        Some (JArr (JStr (age_msg (p_raw_age parsed_age_150)) :: rest)))).
Proof.
  cbv zeta. split; [vm_compute; reflexivity|].
  apply (anomaly_flag_sources (fun _ => 0%Z) parsed_age_150). vm_compute. reflexivity.
Defined.

Lemma burden_label_matches_status_witness :
  let o := respond (fun _ => 1%Z) parsed_1300_800 in
  o = Ok200 (ok_body o) /\
  (let s := nth 5 (fst (primary parsed_1300_800)) 0 in
   (assoc "cost_burden_label" (ok_body o) = Some (JStr "High") -> s = 2 \/ s = 3) /\
   (s = 1 -> assoc "cost_burden_label" (ok_body o) = Some (JStr "Affordable")) /\
   (s = 3 -> assoc "cost_burden_label" (ok_body o) = Some (JStr "High"))).
Proof.
  cbv zeta. split; [vm_compute; reflexivity|].
  apply (burden_label_matches_status (fun _ => 1%Z) parsed_1300_800). vm_compute. reflexivity.
Defined.

Lemma extract_code_leading_token_witness :
  ~ In " "%char (list_ascii_of_string "1") /\
  (extract_code ("1" ++ String " " "Affordable") = float_of_str "1" /\
   extract_code "1" = float_of_str "1" /\
   extract_code (String " " "Affordable") = float_of_str "").
Proof.
  assert (Ht : ~ In " "%char (list_ascii_of_string "1")) by (simpl; intros [E | []]; discriminate).
  split; [exact Ht | apply (extract_code_leading_token "1" "Affordable" Ht)].
Defined.

End ConcreteRuntime.

Lemma median_fill_complete_and_bounded_witness :
  (present col_1_5 <> [] /\ (forall x, In (Some x) col_1_5 -> 1 <= x <= 5)) /\
  (length (fill_median col_1_5) = length col_1_5 /\
   Forall (fun o => exists x, o = Some x /\ 1 <= x <= 5) (fill_median col_1_5)).
Proof.
  assert (Hne : present col_1_5 <> []) by (vm_compute; discriminate).
  assert (Hb : forall x, In (Some x) col_1_5 -> 1 <= x <= 5).
  { intros x Hx. simpl in Hx.
    destruct Hx as [E | [E | [E | []]]]; try discriminate; injection E as <-;
      split; apply Qle_bool_iff; reflexivity. }
  split; [split; [exact Hne | exact Hb]|].
  apply (median_fill_complete_and_bounded col_1_5 1 5 Hne Hb).
Defined.

Lemma clean_then_fill_nonnegative_witness :
  (exists x, In (Some x) col_placeholder /\ 0 <= x) /\
  (length (fill_median (clean_negatives col_placeholder)) = length col_placeholder /\
   Forall (fun o => exists x, o = Some x /\ 0 <= x) (fill_median (clean_negatives col_placeholder))).
Proof.
  assert (Hv : exists x, In (Some x) col_placeholder /\ 0 <= x).
  { exists 4. split; [simpl; right; right; left; reflexivity | apply Qle_bool_iff; reflexivity]. }
  split; [exact Hv | apply (clean_then_fill_nonnegative col_placeholder Hv)].
Defined.

Lemma locality_label_injective_witness :
  ((0 <= 1 <= 9)%Z /\ (0 <= 1 <= 9)%Z /\
   locality_label (inject_Z 3) (inject_Z 1) == locality_label (inject_Z 3) (inject_Z 1)) /\
  (3 = 3 /\ 1 = 1)%Z.
Proof.
  assert (H1 : (0 <= 1 <= 9)%Z) by lia.
  assert (He : locality_label (inject_Z 3) (inject_Z 1) == locality_label (inject_Z 3) (inject_Z 1))
    by reflexivity.
  split; [split; [exact H1 | split; [exact H1 | exact He]]|].
  apply (locality_label_injective 3 1 3 1 H1 H1 He).
Defined.

Lemma first_column_kept_witness :
  NoDup ["cost_burden_ratio"; "affordability_status"] /\
  (~ In "cost_burden_ratio" (to_drop corr_pair ["cost_burden_ratio"; "affordability_status"]) /\
   (forall c, In c (to_drop corr_pair ["cost_burden_ratio"; "affordability_status"]) ->
      In c ["affordability_status"]) /\
   (forall c, In c ["affordability_status"] -> 85#100 < Qabs (corr_pair "cost_burden_ratio" c) ->
      In c (to_drop corr_pair ["cost_burden_ratio"; "affordability_status"]))).
Proof.
  assert (Hnd : NoDup ["cost_burden_ratio"; "affordability_status"]).
  { constructor; [simpl; intros [E | []]; discriminate | constructor; [intros [] | constructor]]. }
  split; [exact Hnd | apply (first_column_kept corr_pair "cost_burden_ratio" ["affordability_status"] Hnd)].
Defined.

Lemma training_metrics_bounded_witness :
  (0 <= 1300 /\ 0 <= 800) /\
  (0 <= training_burden 1300 800 <= 3 /\
   (let s := training_status (training_burden 1300 800) in s = 1 \/ s = 2 \/ s = 3) /\
   (forall r1 r2, r1 <= r2 -> training_status r1 <= training_status r2)).
Proof.
  assert (Hz : 0 <= 1300) by (apply Qle_bool_iff; reflexivity).
  assert (Hc : 0 <= 800) by (apply Qle_bool_iff; reflexivity).
  split; [split; [exact Hz | exact Hc] | apply (training_metrics_bounded 1300 800 Hz Hc)].
Defined.
